(** * DataParsing.ipynb: the CSV tabulation cells and the Reddit paging cells

    A shallow embedding of the data-transformation cells of
    [week2-Intro-Parsing/DataParsing.ipynb]:

    - the [fatalities_per_year] tally loop,
    - the [aircraft_types] / [fatal_aircraft_types] counters and
      [most_common],
    - the [data_sets] paging loop,
    - the [scores] extraction loop and its "more concise" comprehension.

    Python values are modelled as the cells use them: CSV rows are lists of
    strings, [fatalities_per_year] is a finite map from years to totals, a
    [Counter] is an association list of keys and counts, decoded JSON is a
    small value type.  Exceptions are explicit: an expression evaluates to a
    [result], a cell that mutates notebook globals runs to an [outcome] that
    keeps the state reached when the exception was raised.  Plotting and
    printing are left out.

    The notebook's metadata declares Python 3.5.2, and the library calls
    are read as that interpreter runs them.  Where later interpreters
    differ, the statements say so or stay on common ground: the order in
    which a [Counter] hands out its items is a parameter ([insertion_order]
    is the one of CPython 3.7 and later), and statements that promise what
    [int] returns are about [plain_text], on which every CPython 3 agrees.
    Strings are byte strings; [int] is modelled on ASCII text only. *)

From Stdlib Require Import ZArith Ascii String List Lia.
From stdpp Require Import gmap strings list fin_maps sorting.

Set Warnings "-register-all".

Local Open Scope Z_scope.
Local Open Scope string_scope.
Local Open Scope list_scope.

(** ** Exceptions, results and outcomes *)

(** The built-in exceptions the cells can raise.  [RequestException] stands
    for whatever [requests.get] raises on a transport failure. *)
Inductive exn : Type :=
  | IndexError
  | KeyError
  | NameError
  | TypeError
  | ValueError
  | RequestException.

(** Evaluation of an expression: a value or a raised exception. *)
Inductive result (A : Type) : Type :=
  | Ok (a : A)
  | Err (e : exn).
Arguments Ok {A} a.
Arguments Err {A} e.

#[global] Instance result_ret : MRet result := fun A a => Ok a.
#[global] Instance result_bind : MBind result := fun A B k r =>
  match r with
  | Ok a => k a
  | Err e => Err e
  end.

(** Execution of statements over a mutable state: the state at normal
    completion, or the exception together with the state it left behind. *)
Inductive outcome (S : Type) : Type :=
  | Done (s : S)
  | Raised (e : exn) (s : S).
Arguments Done {S} s.
Arguments Raised {S} e s.

Definition state_of {S} (o : outcome S) : S :=
  match o with
  | Done s => s
  | Raised _ s => s
  end.

Definition outcome_map {S T} (f : S -> T) (o : outcome S) : outcome T :=
  match o with
  | Done s => Done (f s)
  | Raised e s => Raised e (f s)
  end.

(** A [for] loop over a list whose body may raise. *)
Fixpoint for_each {S A} (body : S -> A -> outcome S) (s : S) (l : list A)
  : outcome S :=
  match l with
  | [] => Done s
  | x :: l' =>
      match body s x with
      | Done s' => for_each body s' l'
      | Raised e s' => Raised e s'
      end
  end.

(** ** Python strings and lists *)

(** [l[i]] for a non-negative index. *)
Definition getitem {A} (l : list A) (i : nat) : result A :=
  match l !! i with
  | Some x => Ok x
  | None => Err IndexError
  end.

(** [l[-1]]. *)
Definition getitem_last {A} (l : list A) : result A :=
  match last l with
  | Some x => Ok x
  | None => Err IndexError
  end.

(** [l[1:]]: slicing never raises. *)
Definition slice_from_1 {A} (l : list A) : list A := tail l.

(** [s.split(sep)] for a one-character separator. *)
Fixpoint str_split (sep : ascii) (s : string) : list string :=
  match s with
  | EmptyString => [EmptyString]
  | String c s' =>
      if Ascii.eqb c sep then EmptyString :: str_split sep s'
      else match str_split sep s' with
           | [] => [String c EmptyString]
           | p :: ps => String c p :: ps
           end
  end.

(** Truth value of a string: non-empty. *)
Definition truthy (s : string) : bool :=
  match s with
  | EmptyString => false
  | String _ _ => true
  end.

(** The white space [int] skips at both ends of ASCII text: tab, line
    feed, vertical tab, form feed, carriage return and space.  (The
    separators 28 to 31, white space to [str.strip], are not skipped.) *)
Definition is_space (c : ascii) : bool :=
  let n := nat_of_ascii c in
  ((9 <=? n) && (n <=? 13) || (n =? 32))%nat.

Definition digit_of (c : ascii) : option Z :=
  let n := nat_of_ascii c in
  if ((48 <=? n) && (n <=? 57))%nat then Some (Z.of_nat n - 48) else None.

Fixpoint lstrip (l : list ascii) : list ascii :=
  match l with
  | c :: l' => if is_space c then lstrip l' else l
  | [] => []
  end.

Definition strip (l : list ascii) : list ascii :=
  rev (lstrip (rev (lstrip l))).

(** The digit part of an integer literal: one decimal digit or more,
    nothing else ([after_digit] tells whether a digit has been read). *)
Fixpoint int_digits (acc : Z) (after_digit : bool) (l : list ascii)
  : option Z :=
  match l with
  | [] => if after_digit then Some acc else None
  | c :: l' =>
      match digit_of c with
      | Some d => int_digits (10 * acc + d) true l'
      | None => None
      end
  end.

(** [int(s)] on a string, base 10: surrounding white space, an optional
    sign, then digits; anything else raises [ValueError].  This is
    [int] on ASCII text.  Outside ASCII the interpreter also skips Unicode
    white space and reads the decimal digits of other scripts, which the
    model does not; later interpreters accept an underscore between digits
    (3.6) and refuse more than 4300 digits (3.11).  [plain_text] below is
    the text on which none of this matters. *)
Definition int (s : string) : result Z :=
  let body := strip (list_ascii_of_string s) in
  let '(sign, ds) :=
    match body with
    | "-"%char :: ds => (-1, ds)
    | "+"%char :: ds => (1, ds)
    | _ => (1, body)
    end in
  match int_digits 0 false ds with
  | Some n => Ok (sign * n)
  | None => Err ValueError
  end.

(** ** The CSV cells *)

(** A CSV row as [csv.reader] yields it. *)
Abbreviation row := (list string).

(** [int(incident[0].split('/')[-1])]. *)
Definition year_of (incident : row) : result Z :=
  date ← getitem incident 0;
  last_part ← getitem_last (str_split "/" date);
  int last_part.

(** [d[k] += n] on a [defaultdict(int)]: a missing key reads as 0 and is
    created by the assignment. *)
Definition defaultdict_add (d : gmap Z Z) (k n : Z) : gmap Z Z :=
  <[k := default 0 (d !! k) + n]> d.

(** Body of the tally loop: the year is computed first, then the
    fatality cell is tested for truth and, when non-empty, converted and
    added. *)
Definition tally_body (fpy : gmap Z Z) (incident : row) : outcome (gmap Z Z) :=
  match year_of incident with
  | Err e => Raised e fpy
  | Ok year =>
      match getitem incident 11 with
      | Err e => Raised e fpy
      | Ok cell =>
          if truthy cell then
            match int cell with
            | Err e => Raised e fpy
            | Ok num_fatalities =>
                Done (defaultdict_add fpy year num_fatalities)
            end
          else Done fpy
      end
  end.

(** [fatalities_per_year = defaultdict(int)] followed by the loop over
    [airplane_data[1:]]; the outcome carries the dictionary as the loop
    left it. *)
Definition tally (airplane_data : list row) : outcome (gmap Z Z) :=
  for_each tally_body ∅ (slice_from_1 airplane_data).

(** [sum(d.values())]. *)
Definition sum_values (d : gmap Z Z) : Z :=
  map_fold (fun _ v acc => v + acc) 0 d.

(** A [Counter] as the list of its keys with their counts.  The list
    keeps the keys as they were first counted; the order in which the
    interpreter hands the items out is a matter of its own
    ([most_common_in]). *)
Abbreviation Counter := (list (string * Z)).

(** [c[elem] = c.get(elem, 0) + 1] on the list: the count of an existing
    key is raised where it stands, a new key is put last, so that the list
    is in the order in which the keys were first met. *)
Fixpoint counter_incr (c : Counter) (elem : string) : Counter :=
  match c with
  | [] => [(elem, 1)]
  | (k, n) :: c' =>
      if String.eqb elem k then (k, n + 1) :: c'
      else (k, n) :: counter_incr c' elem
  end.

(** [Counter(iterable)]. *)
Definition counter_of (elems : list string) : Counter :=
  fold_left counter_incr elems [].

(** The generator [x[6] for x in rows]. *)
Fixpoint gen_types (rows : list row) : result (list string) :=
  match rows with
  | [] => Ok []
  | x :: rest =>
      k ← getitem x 6;
      ks ← gen_types rest;
      Ok (k :: ks)
  end.

(** The condition [x[11] and int(x[11]) > 0]. *)
Definition is_fatal (x : row) : result bool :=
  cell ← getitem x 11;
  if truthy cell then n ← int cell; Ok (0 <? n)%Z else Ok false.

(** The generator [x[6] for x in rows if x[11] and int(x[11]) > 0]. *)
Fixpoint gen_fatal_types (rows : list row) : result (list string) :=
  match rows with
  | [] => Ok []
  | x :: rest =>
      keep ← is_fatal x;
      if (keep : bool) then
        k ← getitem x 6;
        ks ← gen_fatal_types rest;
        Ok (k :: ks)
      else gen_fatal_types rest
  end.

(** [Counter(x[6] for x in airplane_data[1:])]. *)
Definition count_types (airplane_data : list row) : result Counter :=
  ks ← gen_types (slice_from_1 airplane_data); Ok (counter_of ks).

(** [Counter(x[6] for x in airplane_data[1:] if x[11] and int(x[11]) > 0)]. *)
Definition count_fatal_types (airplane_data : list row) : result Counter :=
  ks ← gen_fatal_types (slice_from_1 airplane_data); Ok (counter_of ks).

(** [sorted(items, key=itemgetter(1), reverse=True)]: descending by count,
    stable, so that items of equal count keep their order. *)
Fixpoint insert_desc (x : string * Z) (l : Counter) : Counter :=
  match l with
  | [] => [x]
  | y :: l' => if (snd y <=? snd x)%Z then x :: l else y :: insert_desc x l'
  end.

Fixpoint sorted_desc (l : Counter) : Counter :=
  match l with
  | [] => []
  | x :: l' => insert_desc x (sorted_desc l')
  end.

(** [heapq.nlargest(n, items, key=itemgetter(1))] on items in the order
    given, which the library documents as
    [sorted(items, key=itemgetter(1), reverse=True)[:n]]. *)
Definition most_common (n : nat) (c : Counter) : Counter :=
  take n (sorted_desc c).

(** [c.most_common(n)]: [nlargest] on [c.items()], the items in the order
    the dictionary hands them out.  CPython 3.7 and later keep insertion
    order.  CPython 3.5, which the notebook's metadata declares, walks its
    hash table, and as string hashes are randomised per run any order of
    the keys can come out; an order is any rearrangement of the items. *)
Definition most_common_in (order : Counter -> Counter)
    (n : nat) (c : Counter) : Counter :=
  most_common n (order c).

Definition insertion_order : Counter -> Counter := fun c => c.

(** One order a hash table may give: the reverse of insertion. *)
Definition reversed_order : Counter -> Counter := fun c => rev c.

(** The notebook's global names of the CSV cells; [None] is a name that is
    not bound yet. *)
Record globals : Type := {
  airplane_data : list row;
  fatalities_per_year : option (gmap Z Z);
  aircraft_types : option Counter;
  fatal_aircraft_types : option Counter
}.

Definition set_fatalities_per_year (g : globals) (d : gmap Z Z) : globals :=
  {| airplane_data := airplane_data g;
     fatalities_per_year := Some d;
     aircraft_types := aircraft_types g;
     fatal_aircraft_types := fatal_aircraft_types g |}.

Definition set_aircraft_types (g : globals) (c : Counter) : globals :=
  {| airplane_data := airplane_data g;
     fatalities_per_year := fatalities_per_year g;
     aircraft_types := Some c;
     fatal_aircraft_types := fatal_aircraft_types g |}.

Definition set_fatal_aircraft_types (g : globals) (c : Counter) : globals :=
  {| airplane_data := airplane_data g;
     fatalities_per_year := fatalities_per_year g;
     aircraft_types := aircraft_types g;
     fatal_aircraft_types := Some c |}.

(** The tabulation cell: the name is rebound to a fresh dictionary, which
    the loop then fills in place. *)
Definition tabulate_cell (g : globals) : outcome globals :=
  outcome_map (set_fatalities_per_year g) (tally (airplane_data g)).

(** The counting cell: each name is bound only once its [Counter] has been
    built, so an exception inside a generator leaves it as it was. *)
Definition count_cell (g : globals) : outcome globals :=
  match count_types (airplane_data g) with
  | Err e => Raised e g
  | Ok c =>
      let g1 := set_aircraft_types g c in
      match count_fatal_types (airplane_data g1) with
      | Err e => Raised e g1
      | Ok fc => Done (set_fatal_aircraft_types g1 fc)
      end
  end.

(** ** Decoded JSON *)

(** What [json.loads] and [r.json()] return.  An object is kept as its
    key/value pairs in document order, keys distinct. *)
Inductive json : Type :=
  | JNull
  | JBool (b : bool)
  | JNum (n : Z)
  | JStr (s : string)
  | JArr (items : list json)
  | JObj (fields : list (string * json)).

Fixpoint assoc {A} (key : string) (fields : list (string * A)) : option A :=
  match fields with
  | [] => None
  | (k, v) :: rest => if String.eqb key k then Some v else assoc key rest
  end.

(** [v[key]] with a string key: only a dictionary can be indexed so. *)
Definition subscript (v : json) (key : string) : result json :=
  match v with
  | JObj fields =>
      match assoc key fields with
      | Some x => Ok x
      | None => Err KeyError
      end
  | _ => Err TypeError
  end.

(** [prefix + v] where [prefix] is a [str]. *)
Definition str_add (prefix : string) (v : json) : result string :=
  match v with
  | JStr s => Ok (String.append prefix s)
  | _ => Err TypeError
  end.

(** [for x in v]: a list yields its items, a dictionary its keys, a string
    its characters; nothing else is iterable. *)
Definition iterate (v : json) : result (list json) :=
  match v with
  | JArr items => Ok items
  | JObj fields => Ok (map (fun kv => JStr (fst kv)) fields)
  | JStr s =>
      Ok (map (fun c => JStr (String c EmptyString)) (list_ascii_of_string s))
  | _ => Err TypeError
  end.

(** [page['data']['after']]. *)
Definition after_of (page : json) : result json :=
  d ← subscript page "data"; subscript d "after".

(** ** The paging cell *)

(** A [requests] response, as far as the cell looks at it: [r.json()]
    decodes the body or raises [ValueError].  The status code is part of
    the response but no statement of the cell reads it. *)
Record Response : Type := {
  status_code : Z;
  body : option json
}.

Definition Response_json (r : Response) : result json :=
  match body r with
  | Some j => Ok j
  | None => Err ValueError
  end.

Definition listing_url : string :=
  "https://reddit.com/r/all/.json?count=100&before=".

Section Paging.

(** The outside world and [requests.get(url, headers=headers)] on it: the
    call returns a response or raises, and leaves a new world.  The
    [headers] argument is the same constant at every call. *)
Context {World : Type}.
Variable requests_get : string -> World -> result Response * World.

(** The names the cell works on, the world, and a log of the URLs
    requested so far (the log is not part of the notebook; statements
    about how many requests were made read it). *)
Record paging : Type := {
  world : World;
  data_sets : list json;
  before : option json;
  requested : list string
}.

(** One turn of [for x in range(10)]. *)
Definition paging_body (st : paging) (x : nat) : outcome paging :=
  match before st with
  | None => Raised NameError st
  | Some cursor =>
      match str_add listing_url cursor with
      | Err e => Raised e st
      | Ok url =>
          let '(r, w') := requests_get url (world st) in
          let st1 := {| world := w';
                        data_sets := data_sets st;
                        before := before st;
                        requested := (requested st ++ [url])%list |} in
          match r ≫= Response_json with
          | Err e => Raised e st1
          | Ok page =>
              let st2 := {| world := w';
                            data_sets := (data_sets st ++ [page])%list;
                            before := before st;
                            requested := requested st1 |} in
              match after_of page with
              | Err e => Raised e st2
              | Ok cursor' =>
                  Done {| world := w';
                          data_sets := data_sets st2;
                          before := Some cursor';
                          requested := requested st2 |}
              end
          end
      end
  end.

(** The loop with [n] turns; the cell has [n = 10]. *)
Definition paging_loop (n : nat) (st : paging) : outcome paging :=
  for_each paging_body st (seq 0 n).

(** The whole cell, from the first page [reddit_json] of the earlier
    cells.  Its first statement, [print(reddit_json['data']['after'])], is
    kept for the exception it may raise (what it prints is left out): when
    it raises, the cell has bound no name yet, which the state shows as no
    page and no cursor.  The cell never binds [data_sets] to an empty list,
    so an empty [data_sets] always stands for "not bound by this cell".
    Then come [data_sets = [reddit_json]], the second lookup of the cursor
    for [before], and the loop. *)
Definition paging_cell (reddit_json : json) (w : World) : outcome paging :=
  match after_of reddit_json with
  | Err e =>
      Raised e {| world := w; data_sets := [];
                  before := None; requested := [] |}
  | Ok _ =>
      match after_of reddit_json with
      | Err e =>
          Raised e {| world := w; data_sets := [reddit_json];
                      before := None; requested := [] |}
      | Ok cursor =>
          paging_loop 10 {| world := w; data_sets := [reddit_json];
                            before := Some cursor; requested := [] |}
      end
  end.

End Paging.

Arguments paging World : clear implicits.

(** ** The score cells *)

(** [x['data']['score']]. *)
Definition score_of (x : json) : result json :=
  d ← subscript x "data"; subscript d "score".

(** [y['data']['children']], iterated. *)
Definition children_of (y : json) : result (list json) :=
  d ← subscript y "data"; c ← subscript d "children"; iterate c.

(** The inner loop: [dataset_scores.append(x['data']['score'])]. *)
Fixpoint dataset_scores (children : list json) : result (list json) :=
  match children with
  | [] => Ok []
  | x :: rest =>
      s ← score_of x; ss ← dataset_scores rest; Ok (s :: ss)
  end.

(** The loop the cell runs: [scores.append(dataset_scores)] once per
    page. *)
Fixpoint scores_loop (data_sets : list json) : result (list (list json)) :=
  match data_sets with
  | [] => Ok []
  | y :: rest =>
      children ← children_of y;
      ds ← dataset_scores children;
      scores ← scores_loop rest;
      Ok (ds :: scores)
  end.

(** The comprehension the cell keeps in a string literal under the
    comment "More concise":
    [[x['data']['score'] for y in data_sets for x in y['data']['children']]]. *)
Fixpoint scores_concise (data_sets : list json) : result (list json) :=
  match data_sets with
  | [] => Ok []
  | y :: rest =>
      children ← children_of y;
      ds ← dataset_scores children;
      scores ← scores_concise rest;
      Ok (ds ++ scores)%list
  end.

(** The value bound to [scores] by the loop, as a Python object: a list of
    lists. *)
Definition scores_value (data_sets : list json) : result json :=
  ls ← scores_loop data_sets; Ok (JArr (map JArr ls)).

(** The value the comprehension would bind: a list of scores. *)
Definition scores_concise_value (data_sets : list json) : result json :=
  l ← scores_concise data_sets; Ok (JArr l).

(** ** Vocabulary of the statements *)

(** Text on which [int] gives the same answer in every CPython 3, and
    the model with it: ASCII characters only, no underscore, at most 4300
    characters. *)
Definition plain_char (c : ascii) : bool :=
  (nat_of_ascii c <? 128)%nat && negb (Ascii.eqb c "_"%char).

Definition plain_text (s : string) : bool :=
  (Z.of_nat (String.length s) <=? 4300)%Z &&
  forallb plain_char (list_ascii_of_string s).

(** The row has a date cell and a fatality cell (fields 0 and 11), both
    plain text. *)
Definition plain_cells (r : row) : bool :=
  match r !! 0%nat, r !! 11%nat with
  | Some date, Some cell => plain_text date && plain_text cell
  | _, _ => false
  end.

(** A well-formed data row: date and fatality cells are plain text, the
    date ends in an integer, and the fatality cell is blank or a
    non-negative integer. *)
Definition well_formed (r : row) : bool :=
  plain_cells r &&
  match year_of r, getitem r 11 with
  | Ok _, Ok cell =>
      if truthy cell then
        match int cell with
        | Ok n => (0 <=? n)%Z
        | Err _ => false
        end
      else true
  | _, _ => false
  end.

(** The integer value of a row's fatality cell, 0 when it is blank. *)
Definition fatality_value (r : row) : Z :=
  match getitem r 11 with
  | Ok cell =>
      if truthy cell then
        match int cell with
        | Ok n => n
        | Err _ => 0
        end
      else 0
  | Err _ => 0
  end.

(** Sum of the non-blank fatality cells of the rows. *)
Definition sum_fatalities (rows : list row) : Z :=
  foldr (fun r acc => fatality_value r + acc) 0 rows.

(** The row has a non-blank fatality cell. *)
Definition has_count (r : row) : bool :=
  match getitem r 11 with
  | Ok cell => truthy cell
  | Err _ => false
  end.

(** The row's date does not end in an integer, or its fatality cell is
    neither blank nor an integer, as [int] decides it. *)
Definition malformed (r : row) : bool :=
  match year_of r with
  | Err ValueError => true
  | Err _ => false
  | Ok _ =>
      match getitem r 11 with
      | Ok cell =>
          if truthy cell then
            match int cell with
            | Err ValueError => true
            | _ => false
            end
          else false
      | Err _ => false
      end
  end.

(** [k1] turns up in [elems] before [k2] does (or [k2] never does). *)
Definition first_seen_before (k1 k2 : string) (elems : list string) : Prop :=
  exists pre post : list string,
    elems = (pre ++ k1 :: post)%list /\ ~ In k1 pre /\ ~ In k2 pre.

(** [x] stands before [y] in [l]. *)
Definition precedes {A} (x y : A) (l : list A) : Prop :=
  exists l1 l2 l3 : list A, l = (l1 ++ x :: l2 ++ y :: l3)%list.

(** ** Sample inputs *)

Definition header_row : row :=
  ["Date"; "Time"; "Location"; "Operator"; "Flight #"; "Route"; "Type";
   "Registration"; "cn/In"; "Aboard"; "Ground"; "Fatalities"; "Summary"].

(** A row with the given date, aircraft type and fatality cell. *)
Definition incident_row (date type fatalities : string) : row :=
  [date; ""; ""; ""; ""; ""; type; ""; ""; ""; ""; fatalities; ""].

Definition fokker_rows : list row :=
  [header_row;
   incident_row "1/1/1920" "Fokker" "3";
   incident_row "1/1/1920" "Fokker" ""].

Definition zero_rows : list row :=
  [header_row;
   incident_row "7/12/1912" "Dirigible" "5";
   incident_row "8/6/1913" "Curtiss seaplane" "0";
   incident_row "9/9/1913" "Zeppelin L-1" "14"].

Definition negative_rows : list row :=
  [header_row; incident_row "1/1/1920" "Fokker" "-3"].

Definition bad_count_rows : list row :=
  [header_row;
   incident_row "1/1/1920" "Fokker" "3";
   incident_row "2/2/1921" "Fokker" "abc";
   incident_row "3/3/1922" "Fokker" "1"].

Definition blank_year_rows : list row :=
  [header_row;
   incident_row "1/1/1920" "Fokker" "";
   incident_row "5/5/1921" "Douglas DC-3" "2";
   incident_row "6/6/1920" "Fokker" ""].

Definition unbound : globals :=
  {| airplane_data := zero_rows;
     fatalities_per_year := None;
     aircraft_types := None;
     fatal_aircraft_types := None |}.

Definition sample_types : list string :=
  ["Fokker"; "Douglas DC-3"; "Douglas DC-3"; "Fokker"; "Zeppelin L-1"].

(** A listing page and a post, in the shape the cells index. *)
Definition listing (children : list json) (after : json) : json :=
  JObj [("kind", JStr "Listing");
        ("data", JObj [("children", JArr children); ("after", after)])].

Definition post (score : Z) : json :=
  JObj [("kind", JStr "t3"); ("data", JObj [("score", JNum score)])].

Definition reply (status : Z) (j : json) : result Response :=
  Ok {| status_code := status; body := Some j |}.

(** A world for the samples: a site that answers by URL, and the number
    of requests served so far.  A URL the site does not know cannot be
    reached. *)
Definition served_get (site : list (string * result Response))
    (url : string) (served : nat) : result Response * nat :=
  (match assoc url site with
   | Some r => r
   | None => Err RequestException
   end, S served).

Definition page_abc : json := listing [post 10; post 20] (JStr "abc").
Definition page_end : json := listing [post 7] JNull.
Definition site_abc : list (string * result Response) :=
  [(String.append listing_url "abc", reply 200 page_end)].

Definition page_blank : json := listing [post 1] (JStr "").
Definition site_blank : list (string * result Response) :=
  [(listing_url, reply 200 page_blank)].

Definition page_a : json := listing [post 1; post 2] (JStr "a").
Definition page_b : json := listing [post 3] (JStr "b").
Definition too_many_requests : json :=
  JObj [("message", JStr "Too Many Requests"); ("error", JNum 429)].
Definition site_unreachable : list (string * result Response) :=
  [(String.append listing_url "a", reply 200 page_b)].
Definition site_429 : list (string * result Response) :=
  [(String.append listing_url "a", reply 200 page_b);
   (String.append listing_url "b", reply 429 too_many_requests)].
Definition site_not_json : list (string * result Response) :=
  [(String.append listing_url "a", reply 200 page_b);
   (String.append listing_url "b",
    Ok {| status_code := 200; body := None |})].

(** The paging state once the first page [page_abc] is in and its cursor
    read, and the state one turn later. *)
Definition abc_start : paging nat :=
  {| world := 0%nat; data_sets := [page_abc];
     before := Some (JStr "abc"); requested := [] |}.

Definition abc_stopped : paging nat :=
  {| world := 1%nat; data_sets := [page_abc; page_end];
     before := Some JNull;
     requested := [String.append listing_url "abc"] |}.

Definition a_start : paging nat :=
  {| world := 0%nat; data_sets := [page_a];
     before := Some (JStr "a"); requested := [] |}.

Definition a_then_b : paging nat :=
  {| world := 1%nat; data_sets := [page_a; page_b];
     before := Some (JStr "b");
     requested := [String.append listing_url "a"] |}.

(** ** Further cells and vocabulary *)

(** The earlier score cell, on the first page alone:
    [[x['data']['score'] for x in reddit_json['data']['children']]]. *)
Definition page_scores (reddit_json : json) : result (list json) :=
  children ← children_of reddit_json; dataset_scores children.

(** A data row the tally loop reads without raising, whatever the sign of
    its count. *)
Definition readable (r : row) : bool :=
  match year_of r, getitem r 11 with
  | Ok _, Ok cell =>
      if truthy cell then
        match int cell with
        | Ok _ => true
        | Err _ => false
        end
      else true
  | _, _ => false
  end.

(** The row is dated in year [y] and has a non-blank fatality cell. *)
Definition counted_in (y : Z) (r : row) : bool :=
  match year_of r with
  | Ok y' => (y' =? y)%Z && has_count r
  | Err _ => false
  end.

(** Sum of the fatality cells of the rows counted in year [y]. *)
Definition year_total (y : Z) (rows : list row) : Z :=
  sum_fatalities (List.filter (counted_in y) rows).

(** The character occurs in the string. *)
Fixpoint has_char (c : ascii) (s : string) : bool :=
  match s with
  | EmptyString => false
  | String c' s' => Ascii.eqb c' c || has_char c s'
  end.

(** How many times [k] occurs in [elems]. *)
Fixpoint occurrences (k : string) (elems : list string) : Z :=
  match elems with
  | [] => 0
  | x :: rest => (if String.eqb k x then 1 else 0) + occurrences k rest
  end.

(** [sum(c.values())] of a counter. *)
Definition sum_counts (c : Counter) : Z :=
  foldr (fun kv acc => snd kv + acc) 0 c.

(** The same server, with every status code rewritten by [f]. *)
Definition restatus {World : Type} (f : Z -> Z)
    (get : string -> World -> result Response * World)
    (url : string) (w : World) : result Response * World :=
  let '(r, w') := get url w in
  (match r with
   | Ok resp => Ok {| status_code := f (status_code resp); body := body resp |}
   | Err e => Err e
   end, w').

Definition short_rows : list row :=
  [header_row;
   incident_row "1/1/1920" "Fokker" "3";
   ["2/2/1921"; ""; ""; ""; ""; ""; "Fokker"];
   incident_row "3/3/1922" "Fokker" "1"].

Definition mixed_rows : list row :=
  [header_row;
   incident_row "7/12/1912" "Dirigible" "5";
   incident_row "8/6/1913" "Curtiss seaplane" "0";
   incident_row "9/9/1913" "Zeppelin L-1" "14";
   incident_row "3/5/1912" "Dirigible" "";
   incident_row "10/17/1913" "Zeppelin L-2" "30"].

Definition post_without_score : json :=
  JObj [("kind", JStr "t3"); ("data", JObj [("title", JStr "no score")])].

(** The requests made so far answer, one by one, to the cursors of the
    pages collected so far. *)
Definition chained (pages : list json) (urls : list string) : Prop :=
  forall (i : nat) (url : string),
    urls !! i = Some url ->
    exists (page : json) (c : string),
      pages !! i = Some page /\
      after_of page = Ok (JStr c) /\
      url = String.append listing_url c.

(** * Properties *)

Example int_1920 : int "1920" = Ok 1920.
Proof. reflexivity. Qed.
Example int_spaces : int "  12 " = Ok 12.
Proof. reflexivity. Qed.
Example int_neg : int "-3" = Ok (-3).
Proof. reflexivity. Qed.
Example int_empty : int "" = Err ValueError.
Proof. reflexivity. Qed.
Example int_word : int "abc" = Err ValueError.
Proof. reflexivity. Qed.
Example int_underscore : int "1_000" = Err ValueError.
Proof. reflexivity. Qed.
Example int_separator :
  int (String (ascii_of_nat 28) "3") = Err ValueError /\
  int (String (ascii_of_nat 9) "3") = Ok 3.
Proof. split; reflexivity. Qed.
Example split_date : str_split "/" "9/17/1908" = ["9"; "17"; "1908"].
Proof. reflexivity. Qed.
Example split_none : str_split "/" "" = [""].
Proof. reflexivity. Qed.

(** The scenario of the two Fokker rows. *)
Example fokker_tally : tally fokker_rows = Done {[1920 := 3]}.
Proof. vm_compute. reflexivity. Qed.
Example fokker_counts :
  count_types fokker_rows = Ok [("Fokker", 2)] /\
  count_fatal_types fokker_rows = Ok [("Fokker", 1)].
Proof. split; reflexivity. Qed.

(** ** The tally loop *)

Lemma sum_values_empty : sum_values ∅ = 0.
Proof. unfold sum_values. apply map_fold_empty. Qed.

(** Adding [n] under a key raises the sum of the values by [n], whether
    the key was there or not. *)
Lemma sum_values_add (d : gmap Z Z) (k n : Z) :
  sum_values (defaultdict_add d k n) = sum_values d + n.
Proof.
  unfold sum_values, defaultdict_add.
  destruct (d !! k) as [v|] eqn:Hk; simpl.
  - rewrite <- (insert_delete_eq d k (v + n)).
    rewrite map_fold_insert_L; [| intros; lia | apply lookup_delete_eq].
    rewrite (map_fold_delete_L _ _ k v d); [lia | intros; lia | done].
  - rewrite map_fold_insert_L; [lia | intros; lia | done].
Qed.

(** What one turn of the loop does on a well-formed row. *)
Lemma tally_body_well_formed (d : gmap Z Z) (r : row) :
  well_formed r = true ->
  exists y : Z,
    year_of r = Ok y /\
    tally_body d r =
      Done (if has_count r then defaultdict_add d y (fatality_value r) else d).
Proof.
  unfold well_formed, tally_body, has_count, fatality_value.
  intros H. apply andb_prop in H as [_ H]. revert H.
  destruct (year_of r) as [y|]; [| discriminate].
  destruct (getitem r 11) as [cell|]; [| discriminate].
  intros H. exists y. split; [reflexivity |].
  destruct (truthy cell); [| reflexivity].
  destruct (int cell); [reflexivity | discriminate].
Qed.

Lemma fatality_value_no_count (r : row) :
  has_count r = false -> fatality_value r = 0.
Proof.
  unfold has_count, fatality_value.
  destruct (getitem r 11) as [cell|]; [| reflexivity].
  intros ->. reflexivity.
Qed.

(** The loop from any dictionary, on well-formed rows: it completes, and
    the values grow by the sum of the non-blank cells. *)
Lemma tally_loop_sum (rows : list row) :
  forall d0 : gmap Z Z,
    forallb well_formed rows = true ->
    exists d : gmap Z Z,
      for_each tally_body d0 rows = Done d /\
      sum_values d = sum_values d0 + sum_fatalities rows.
Proof.
  induction rows as [| r rows IH]; intros d0 Hwf; simpl in *.
  - exists d0. split; [reflexivity | lia].
  - apply andb_prop in Hwf as [Hr Hrows].
    destruct (tally_body_well_formed d0 r Hr) as (y & _ & ->).
    destruct (has_count r) eqn:Hc.
    + destruct (IH (defaultdict_add d0 y (fatality_value r)) Hrows)
        as (d & -> & Hsum).
      exists d. split; [reflexivity |].
      rewrite Hsum, sum_values_add. lia.
    + destruct (IH d0 Hrows) as (d & -> & Hsum).
      exists d. split; [reflexivity |].
      rewrite Hsum, (fatality_value_no_count r Hc). lia.
Qed.

(** C3: on a header row followed by well-formed data rows, the tally loop
    completes and the values of [fatalities_per_year] add up to the sum of
    the integer values of the non-blank fatality cells (field 11) of the
    data rows. *)
Theorem tally_values_sum (airplane_data : list row) :
  forallb well_formed (slice_from_1 airplane_data) = true ->
  exists d : gmap Z Z,
    tally airplane_data = Done d /\
    sum_values d = sum_fatalities (slice_from_1 airplane_data).
Proof.
  intros Hwf. unfold tally.
  destruct (tally_loop_sum _ ∅ Hwf) as (d & Hrun & Hsum).
  exists d. split; [exact Hrun |].
  rewrite Hsum, sum_values_empty. lia.
Qed.

Lemma tally_values_sum_witness :
  forallb well_formed (slice_from_1 zero_rows) = true /\
  exists d : gmap Z Z,
    tally zero_rows = Done d /\
    sum_values d = sum_fatalities (slice_from_1 zero_rows).
Proof.
  split; [reflexivity | apply (tally_values_sum zero_rows); reflexivity].
Defined.

Example zero_rows_sum : sum_fatalities (slice_from_1 zero_rows) = 19.
Proof. reflexivity. Qed.

Lemma defaultdict_add_is_Some (d : gmap Z Z) (k n y : Z) :
  is_Some (defaultdict_add d k n !! y) <-> k = y \/ is_Some (d !! y).
Proof. unfold defaultdict_add. apply lookup_insert_is_Some'. Qed.

(** The keys after the loop: those already there, and the years of the
    rows that carry a count. *)
Lemma tally_loop_keys (rows : list row) :
  forall d0 : gmap Z Z,
    forallb well_formed rows = true ->
    exists d : gmap Z Z,
      for_each tally_body d0 rows = Done d /\
      forall y : Z,
        is_Some (d !! y) <->
        is_Some (d0 !! y) \/
        exists r : row, In r rows /\ year_of r = Ok y /\ has_count r = true.
Proof.
  induction rows as [| r rows IH]; intros d0 Hwf; simpl in *.
  - exists d0. split; [reflexivity |].
    intros y. split; [auto | intros [H | (r & [] & _)]; exact H].
  - apply andb_prop in Hwf as [Hr Hrows].
    destruct (tally_body_well_formed d0 r Hr) as (yr & Hyr & ->).
    destruct (has_count r) eqn:Hc.
    + destruct (IH (defaultdict_add d0 yr (fatality_value r)) Hrows)
        as (d & -> & Hkeys).
      exists d. split; [reflexivity |].
      intros y. rewrite Hkeys, defaultdict_add_is_Some. split.
      * intros [[<- | H] | (r' & Hin & Hy & Hc')].
        -- right. exists r. auto.
        -- left. exact H.
        -- right. exists r'. auto.
      * intros [H | (r' & [<- | Hin] & Hy & Hc')].
        -- left. right. exact H.
        -- left. left. congruence.
        -- right. exists r'. auto.
    + destruct (IH d0 Hrows) as (d & -> & Hkeys).
      exists d. split; [reflexivity |].
      intros y. rewrite Hkeys. split.
      * intros [H | (r' & Hin & Hy & Hc')]; [left; exact H |].
        right. exists r'. auto.
      * intros [H | (r' & [<- | Hin] & Hy & Hc')].
        -- left. exact H.
        -- congruence.
        -- right. exists r'. auto.
Qed.

(** C10: on well-formed data rows the tally loop completes, and a year is
    a key of [fatalities_per_year] exactly when some data row dated in it
    has a non-blank fatality cell; a year all of whose rows have a blank
    cell is no key at all (it does not appear with value 0). *)
Theorem tally_keys_need_a_count (airplane_data : list row) :
  forallb well_formed (slice_from_1 airplane_data) = true ->
  exists d : gmap Z Z,
    tally airplane_data = Done d /\
    (forall y : Z,
        is_Some (d !! y) <->
        exists r : row,
          In r (slice_from_1 airplane_data) /\
          year_of r = Ok y /\ has_count r = true) /\
    (forall y : Z,
        (forall r : row,
            In r (slice_from_1 airplane_data) ->
            year_of r = Ok y -> has_count r = false) ->
        d !! y = None).
Proof.
  intros Hwf. unfold tally.
  destruct (tally_loop_keys _ ∅ Hwf) as (d & Hrun & Hkeys).
  assert (Hiff : forall y : Z,
             is_Some (d !! y) <->
             exists r : row,
               In r (slice_from_1 airplane_data) /\
               year_of r = Ok y /\ has_count r = true).
  { intros y. rewrite Hkeys. split; [| auto].
    intros [H | H]; [| exact H].
    rewrite lookup_empty in H. destruct H as [? H]. discriminate H. }
  exists d. split; [exact Hrun |]. split; [exact Hiff |].
  intros y Hblank. apply eq_None_not_Some. rewrite Hiff.
  intros (r & Hin & Hy & Hc). rewrite (Hblank r Hin Hy) in Hc. discriminate.
Qed.

Lemma tally_keys_need_a_count_witness :
  forallb well_formed (slice_from_1 blank_year_rows) = true /\
  exists d : gmap Z Z,
    tally blank_year_rows = Done d /\
    (forall y : Z,
        is_Some (d !! y) <->
        exists r : row,
          In r (slice_from_1 blank_year_rows) /\
          year_of r = Ok y /\ has_count r = true) /\
    (forall y : Z,
        (forall r : row,
            In r (slice_from_1 blank_year_rows) ->
            year_of r = Ok y -> has_count r = false) ->
        d !! y = None).
Proof.
  split; [reflexivity |].
  apply (tally_keys_need_a_count blank_year_rows). reflexivity.
Defined.

(** 1920 has two rows, both blank: only 1921 is a key. *)
Example blank_year_tally : tally blank_year_rows = Done {[1921 := 2]}.
Proof. vm_compute. reflexivity. Qed.

(** ** Rows the loop cannot read *)

Lemma int_cases (s : string) :
  (exists n : Z, int s = Ok n) \/ int s = Err ValueError.
Proof.
  unfold int.
  destruct (match strip (list_ascii_of_string s) with
            | [] => (1, strip (list_ascii_of_string s))
            | c :: ds => _
            end) as [sign ds].
  destruct (int_digits 0 false ds); eauto.
Qed.

Lemma str_split_nonempty (sep : ascii) (s : string) : str_split sep s <> [].
Proof.
  destruct s as [| c s]; simpl; [discriminate |].
  destruct (Ascii.eqb c sep); [discriminate |].
  destruct (str_split sep s); discriminate.
Qed.

Lemma getitem_in_range {A} (l : list A) (i : nat) :
  (i < length l)%nat -> exists x : A, getitem l i = Ok x.
Proof.
  intros H. unfold getitem.
  destruct (lookup_lt_is_Some_2 l i H) as [x ->]. eauto.
Qed.

(** With a date cell present, the year either parses or raises
    [ValueError]. *)
Lemma year_of_cases (r : row) :
  (0 < length r)%nat ->
  (exists y : Z, year_of r = Ok y) \/ year_of r = Err ValueError.
Proof.
  intros H. unfold year_of.
  destruct (getitem_in_range r 0 H) as [date ->]. simpl.
  unfold getitem_last.
  destruct (last (str_split "/" date)) as [p|] eqn:Hl.
  - simpl. apply int_cases.
  - apply last_None in Hl. destruct (str_split_nonempty _ _ Hl).
Qed.

(** A malformed row stops the loop with [ValueError], whatever the
    dictionary holds, and leaves the dictionary as it was. *)
Lemma tally_body_malformed (d : gmap Z Z) (r : row) :
  malformed r = true -> tally_body d r = Raised ValueError d.
Proof.
  unfold malformed, tally_body.
  destruct (year_of r) as [y | []]; try discriminate; [| reflexivity].
  destruct (getitem r 11) as [cell|]; [| discriminate].
  destruct (truthy cell); [| discriminate].
  destruct (int cell) as [n | []]; try discriminate. reflexivity.
Qed.

(** A row of twelve fields or more that is not malformed is read without
    an exception. *)
Lemma tally_body_readable (d : gmap Z Z) (r : row) :
  (12 <= length r)%nat -> malformed r = false ->
  exists d' : gmap Z Z, tally_body d r = Done d'.
Proof.
  intros Hlen. unfold malformed, tally_body.
  destruct (year_of_cases r) as [[y ->] | ->]; [lia | | discriminate].
  destruct (getitem_in_range r 11) as [cell ->]; [lia |].
  destruct (truthy cell); [| eauto].
  destruct (int_cases cell) as [[n ->] | ->]; [eauto | discriminate].
Qed.

Lemma tally_loop_malformed (rows : list row) :
  forall d0 : gmap Z Z,
    Forall (fun r => (12 <= length r)%nat) rows ->
    existsb malformed rows = true ->
    exists (pre : list row) (r : row) (post : list row) (d : gmap Z Z),
      rows = (pre ++ r :: post)%list /\
      existsb malformed pre = false /\
      malformed r = true /\
      for_each tally_body d0 pre = Done d /\
      for_each tally_body d0 rows = Raised ValueError d.
Proof.
  induction rows as [| r rows IH]; intros d0 Hlen Hex; simpl in *.
  - discriminate.
  - apply Forall_cons in Hlen as [Hr Hrows].
    destruct (malformed r) eqn:Hm.
    + exists [], r, rows, d0. rewrite (tally_body_malformed d0 r Hm).
      repeat split; try reflexivity. exact Hm.
    + destruct (tally_body_readable d0 r Hr Hm) as [d' Hd'].
      destruct (IH d' Hrows Hex) as (pre & r' & post & d & -> & Hp & Hr' & Hpre & Hrun).
      exists (r :: pre), r', post, d. simpl. rewrite Hm, Hd'.
      repeat split; assumption.
Qed.

Lemma plain_cells_length (r : row) :
  plain_cells r = true -> (12 <= length r)%nat.
Proof.
  unfold plain_cells. destruct (r !! 0%nat); [| discriminate].
  destruct (r !! 11%nat) eqn:H11; [| discriminate].
  intros _. apply lookup_lt_Some in H11. lia.
Qed.

(** C5, amended: when the date and fatality cells of every data row are
    plain text (so each row has its twelve fields) and some data row has a
    date whose last [/]-part [int] rejects, or a non-blank fatality cell
    [int] rejects, the tally loop stops at the first such row with the
    built-in [ValueError]; the rows before it have been tallied and the
    row itself is neither skipped nor counted. *)
Theorem malformed_row_raises_ValueError (airplane_data : list row) :
  forallb plain_cells (slice_from_1 airplane_data) = true ->
  existsb malformed (slice_from_1 airplane_data) = true ->
  exists (pre : list row) (r : row) (post : list row) (d : gmap Z Z),
    slice_from_1 airplane_data = (pre ++ r :: post)%list /\
    existsb malformed pre = false /\
    malformed r = true /\
    for_each tally_body ∅ pre = Done d /\
    tally airplane_data = Raised ValueError d.
Proof.
  intros Hplain Hex. apply (tally_loop_malformed _ ∅); [| exact Hex].
  apply Forall_forall. intros r Hr. apply plain_cells_length.
  rewrite forallb_forall in Hplain. apply Hplain, list_elem_of_In, Hr.
Qed.

Lemma malformed_row_raises_ValueError_witness :
  forallb plain_cells (slice_from_1 bad_count_rows) = true /\
  existsb malformed (slice_from_1 bad_count_rows) = true /\
  exists (pre : list row) (r : row) (post : list row) (d : gmap Z Z),
    slice_from_1 bad_count_rows = (pre ++ r :: post)%list /\
    existsb malformed pre = false /\
    malformed r = true /\
    for_each tally_body ∅ pre = Done d /\
    tally bad_count_rows = Raised ValueError d.
Proof.
  split; [reflexivity |]. split; [reflexivity |].
  apply (malformed_row_raises_ValueError bad_count_rows); reflexivity.
Defined.

(** C5 as stated fails: a fatality cell ["-3"] is not a non-negative
    integer, yet the loop accepts it and tallies -3; and a cell ["abc"]
    raises the plain [ValueError] of [int], which names neither the row
    nor the field. *)
Lemma negative_count_is_tallied :
  tally negative_rows = Done {[1920 := -3]} /\
  tally bad_count_rows = Raised ValueError {[1920 := 3]}.
Proof. split; vm_compute; reflexivity. Qed.

(** ** A fatality cell of ["0"] *)

Lemma for_each_app {S A} (body : S -> A -> outcome S) (l1 l2 : list A) :
  forall s : S,
    for_each body s (l1 ++ l2) =
    match for_each body s l1 with
    | Done s' => for_each body s' l2
    | Raised e s' => Raised e s'
    end.
Proof.
  induction l1 as [| x l1 IH]; intros s; simpl; [reflexivity |].
  destruct (body s x); [apply IH | reflexivity].
Qed.

(** Adding 0 under [y] commutes with any later addition. *)
Lemma defaultdict_add_zero_comm (d : gmap Z Z) (y k n : Z) :
  defaultdict_add (defaultdict_add d y 0) k n =
  defaultdict_add (defaultdict_add d k n) y 0.
Proof.
  unfold defaultdict_add. destruct (decide (y = k)) as [-> | Hne].
  - rewrite !lookup_insert_eq, !insert_insert_eq. simpl. f_equal. lia.
  - rewrite (lookup_insert_ne _ y k), (lookup_insert_ne _ k y) by congruence.
    apply insert_insert_ne. congruence.
Qed.

Lemma tally_body_after_zero (d : gmap Z Z) (y : Z) (r : row) :
  tally_body (defaultdict_add d y 0) r =
  outcome_map (fun d' => defaultdict_add d' y 0) (tally_body d r).
Proof.
  unfold tally_body.
  destruct (year_of r) as [yr|]; [| reflexivity].
  destruct (getitem r 11) as [cell|]; [| reflexivity].
  destruct (truthy cell); [| reflexivity].
  destruct (int cell) as [n|]; [| reflexivity].
  simpl. f_equal. apply defaultdict_add_zero_comm.
Qed.

Lemma tally_loop_after_zero (y : Z) (rows : list row) :
  forall d : gmap Z Z,
    for_each tally_body (defaultdict_add d y 0) rows =
    outcome_map (fun d' => defaultdict_add d' y 0)
                (for_each tally_body d rows).
Proof.
  induction rows as [| r rows IH]; intros d; simpl; [reflexivity |].
  rewrite tally_body_after_zero.
  destruct (tally_body d r); simpl; [apply IH | reflexivity].
Qed.

(** A row the fatal filter rejects does not reach the generator's
    output. *)
Lemma gen_fatal_types_skip (pre post : list row) (r : row) :
  is_fatal r = Ok false ->
  gen_fatal_types (pre ++ r :: post) = gen_fatal_types (pre ++ post).
Proof.
  intros Hr. induction pre as [| x pre IH]; simpl.
  - rewrite Hr. reflexivity.
  - rewrite IH. reflexivity.
Qed.

(** C6: a data row whose fatality cell is exactly ["0"] makes the tally
    loop add 0 under the row's year, so that the year is a key of
    [fatalities_per_year] (the tally is that of the other rows with 0 added
    under the year), and the fatal-only counter leaves the row out of its
    counts. *)
Theorem zero_count_row (header r : row) (pre post : list row) (y : Z) :
  getitem r 11 = Ok "0" ->
  year_of r = Ok y ->
  (forall d : gmap Z Z, tally_body d r = Done (defaultdict_add d y 0)) /\
  (forall d : gmap Z Z,
      tally (header :: pre ++ post) = Done d ->
      tally (header :: pre ++ r :: post) = Done (defaultdict_add d y 0) /\
      defaultdict_add d y 0 !! y = Some (default 0 (d !! y))) /\
  is_fatal r = Ok false /\
  count_fatal_types (header :: pre ++ r :: post) =
  count_fatal_types (header :: pre ++ post).
Proof.
  intros Hcell Hyear.
  assert (Hbody : forall d : gmap Z Z,
             tally_body d r = Done (defaultdict_add d y 0)).
  { intros d. unfold tally_body. rewrite Hyear, Hcell. reflexivity. }
  assert (Hfatal : is_fatal r = Ok false).
  { unfold is_fatal. rewrite Hcell. reflexivity. }
  split; [exact Hbody |]. split; [| split; [exact Hfatal |]].
  - intros d. unfold tally. simpl. rewrite !for_each_app. simpl.
    destruct (for_each tally_body ∅ pre) as [d1 | e d1]; [| discriminate].
    rewrite Hbody, tally_loop_after_zero. intros ->. simpl.
    split; [reflexivity |].
    unfold defaultdict_add. rewrite lookup_insert_eq. f_equal. lia.
  - unfold count_fatal_types. simpl.
    rewrite (gen_fatal_types_skip pre post r Hfatal). reflexivity.
Qed.

Lemma zero_count_row_witness :
  getitem (incident_row "8/6/1913" "Curtiss seaplane" "0") 11 = Ok "0" /\
  year_of (incident_row "8/6/1913" "Curtiss seaplane" "0") = Ok 1913 /\
  tally zero_rows = Done (defaultdict_add {[1912 := 5; 1913 := 14]} 1913 0) /\
  count_fatal_types zero_rows =
  count_fatal_types
    [header_row;
     incident_row "7/12/1912" "Dirigible" "5";
     incident_row "9/9/1913" "Zeppelin L-1" "14"].
Proof.
  pose proof (zero_count_row header_row
                (incident_row "8/6/1913" "Curtiss seaplane" "0")
                [incident_row "7/12/1912" "Dirigible" "5"]
                [incident_row "9/9/1913" "Zeppelin L-1" "14"]
                1913 eq_refl eq_refl) as (_ & Htally & _ & Hcount).
  split; [reflexivity |]. split; [reflexivity |].
  split; [| exact Hcount].
  apply (Htally {[1912 := 5; 1913 := 14]}). vm_compute. reflexivity.
Defined.

(** The year of a lone ["0"] row is a key, with value 0. *)
Example lone_zero_row :
  tally [header_row; incident_row "8/6/1913" "Curtiss seaplane" "0"]
  = Done {[1913 := 0]} /\
  count_fatal_types
    [header_row; incident_row "8/6/1913" "Curtiss seaplane" "0"] = Ok [] /\
  count_types [header_row; incident_row "8/6/1913" "Curtiss seaplane" "0"]
  = Ok [("Curtiss seaplane", 1)].
Proof. split; [vm_compute; reflexivity | split; reflexivity]. Qed.

(** ** Header only, and running a cell again *)

(** C8: on a header row with no data rows the tally loop and both counters
    complete without raising, each with an empty mapping. *)
Theorem header_only_is_empty (header : row) :
  tally [header] = Done ∅ /\
  count_types [header] = Ok [] /\
  count_fatal_types [header] = Ok [].
Proof. repeat split; reflexivity. Qed.

Lemma set_fatalities_per_year_twice (g : globals) (d d' : gmap Z Z) :
  set_fatalities_per_year (set_fatalities_per_year g d) d' =
  set_fatalities_per_year g d'.
Proof. reflexivity. Qed.

(** C9: running the tabulation cell, or the counting cell, a second time
    on the state the first run left ends in the same outcome and the same
    mappings: each cell rebinds its accumulators before filling them, and
    does not touch [airplane_data]. *)
Theorem cells_rerun_same (g : globals) :
  tabulate_cell (state_of (tabulate_cell g)) = tabulate_cell g /\
  count_cell (state_of (count_cell g)) = count_cell g.
Proof.
  split.
  - unfold tabulate_cell.
    destruct (tally (airplane_data g)) as [d | e d] eqn:Ht; simpl;
      rewrite Ht; reflexivity.
  - unfold count_cell.
    destruct (count_types (airplane_data g)) as [c | e] eqn:Hc; simpl.
    + destruct (count_fatal_types (airplane_data g)) as [fc | e] eqn:Hf;
        simpl; rewrite Hc; simpl; rewrite Hf; reflexivity.
    + rewrite Hc. reflexivity.
Qed.

Example unbound_rerun :
  fatalities_per_year (state_of (tabulate_cell unbound)) =
    Some {[1912 := 5; 1913 := 14]} /\
  fatalities_per_year
    (state_of (tabulate_cell (state_of (tabulate_cell unbound)))) =
    Some {[1912 := 5; 1913 := 14]}.
Proof. split; vm_compute; reflexivity. Qed.

(** ** Counters and [most_common] *)

(** The keys after counting one more element: unchanged when the element
    is a key already, else the element is added last. *)
Lemma counter_incr_keys (c : Counter) (k : string) :
  c.*1 ++ (if decide (k ∈ c.*1) then [] else [k]) = (counter_incr c k).*1.
Proof.
  induction c as [| [k' n] c IH].
  - destruct (decide (k ∈ ([] : Counter).*1)) as [H | H];
      [inversion H | reflexivity].
  - cbn [counter_incr]. rewrite fmap_cons. cbn [fst].
    destruct (String.eqb_spec k k') as [-> | Hne].
    + destruct (decide (k' ∈ k' :: c.*1)) as [H | H].
      * rewrite app_nil_r. reflexivity.
      * destruct H. apply list_elem_of_here.
    + rewrite fmap_cons. cbn [fst]. rewrite <- IH.
      destruct (decide (k ∈ c.*1)) as [Hin | Hnin],
               (decide (k ∈ k' :: c.*1)) as [Hin' | Hnin']; try reflexivity.
      * destruct Hnin'. apply list_elem_of_further, Hin.
      * apply elem_of_cons in Hin' as [? | ?]; contradiction.
Qed.

Lemma counter_incr_NoDup (c : Counter) (k : string) :
  NoDup c.*1 -> NoDup (counter_incr c k).*1.
Proof.
  intros Hnd. rewrite <- counter_incr_keys.
  destruct (decide (k ∈ c.*1)) as [Hin | Hnin].
  - rewrite app_nil_r. exact Hnd.
  - apply NoDup_app. split; [exact Hnd |]. split.
    + intros x Hx Hk. apply list_elem_of_singleton in Hk. congruence.
    + apply NoDup_singleton.
Qed.

(** Counting more elements only adds keys, after the ones there are. *)
Lemma fold_counter_incr_keys (elems : list string) :
  forall acc : Counter,
    exists extra : list string,
      (fold_left counter_incr elems acc).*1 = acc.*1 ++ extra /\
      forall x : string, x ∈ extra -> x ∈ elems.
Proof.
  induction elems as [| k elems IH]; intros acc; simpl.
  - exists []. split; [by rewrite app_nil_r | intros x Hx; inversion Hx].
  - destruct (IH (counter_incr acc k)) as (extra & Hkeys & Hsub).
    rewrite <- counter_incr_keys, <- app_assoc in Hkeys.
    eexists. split; [exact Hkeys |].
    intros x Hx. apply elem_of_app in Hx as [Hx | Hx].
    + destruct (decide (k ∈ acc.*1)); [inversion Hx |].
      apply list_elem_of_singleton in Hx as ->. apply list_elem_of_here.
    + apply list_elem_of_further, Hsub, Hx.
Qed.

Lemma fold_counter_incr_NoDup (elems : list string) :
  forall acc : Counter,
    NoDup acc.*1 -> NoDup (fold_left counter_incr elems acc).*1.
Proof.
  induction elems as [| k elems IH]; intros acc Hnd; simpl; [exact Hnd |].
  apply IH, counter_incr_NoDup, Hnd.
Qed.

Lemma counter_of_NoDup (elems : list string) : NoDup (counter_of elems).*1.
Proof. apply fold_counter_incr_NoDup. constructor. Qed.

(** A key has one count. *)
Lemma NoDup_keys_functional (c : Counter) (k : string) (a b : Z) :
  NoDup c.*1 -> (k, a) ∈ c -> (k, b) ∈ c -> a = b.
Proof.
  induction c as [| [k' v] c IH]; simpl; intros Hnd Ha Hb.
  - inversion Ha.
  - apply NoDup_cons in Hnd as [Hk' Hnd].
    apply elem_of_cons in Ha as [Ha | Ha], Hb as [Hb | Hb].
    + congruence.
    + exfalso. apply Hk'. inversion Ha; subst.
      apply (list_elem_of_fmap_2 fst) in Hb. exact Hb.
    + exfalso. apply Hk'. inversion Hb; subst.
      apply (list_elem_of_fmap_2 fst) in Ha. exact Ha.
    + exact (IH Hnd Ha Hb).
Qed.

Lemma precedes_sublist {A} (x y : A) (l : list A) :
  precedes x y l <-> [x; y] `sublist_of` l.
Proof.
  unfold precedes. rewrite sublist_cons_l. split.
  - intros (l1 & l2 & l3 & ->). exists l1, (l2 ++ y :: l3). split; [done |].
    apply singleton_sublist_l, elem_of_app. right. apply list_elem_of_here.
  - intros (k1 & k2 & -> & Hy). apply singleton_sublist_l in Hy.
    apply list_elem_of_split in Hy as (l2 & l3 & ->). by exists k1, l2, l3.
Qed.

(** In a counter the items stand in the order in which their keys were
    first seen. *)
Lemma counter_of_first_seen (elems : list string) (k1 k2 : string) (c1 c2 : Z) :
  first_seen_before k1 k2 elems -> k1 <> k2 ->
  (k1, c1) ∈ counter_of elems -> (k2, c2) ∈ counter_of elems ->
  precedes (k1, c1) (k2, c2) (counter_of elems).
Proof.
  intros (pre & post & -> & Hk1 & Hk2) Hne Hin1 Hin2.
  pose proof (counter_of_NoDup (pre ++ k1 :: post)) as Hnd.
  unfold counter_of in *. rewrite fold_left_app in *. simpl in *.
  set (A := fold_left counter_incr pre []) in *.
  assert (HA : forall x : string, x ∈ A.*1 -> x ∈ pre).
  { destruct (fold_counter_incr_keys pre []) as (extra & Hkeys & Hsub).
    fold A in Hkeys. simpl in Hkeys. rewrite Hkeys. exact Hsub. }
  destruct (fold_counter_incr_keys post (counter_incr A k1))
    as (extra & Hkeys & _).
  rewrite <- counter_incr_keys in Hkeys.
  rewrite decide_False in Hkeys
    by (intros H; apply Hk1, list_elem_of_In, HA, H).
  rewrite <- app_assoc in Hkeys. simpl in Hkeys.
  set (cnt := fold_left counter_incr post (counter_incr A k1)) in *.
  apply fmap_app_inv in Hkeys as (M1 & M2 & HM1 & HM2 & Hcnt).
  symmetry in HM2. apply fmap_cons_inv in HM2 as (p & M3 & Hp & HM3 & ->).
  assert (Hq : exists q : string * Z, q ∈ M3 /\ fst q = k2).
  { assert (Hk : k2 ∈ cnt.*1) by exact (list_elem_of_fmap_2 fst _ _ Hin2).
    rewrite Hcnt, fmap_app, fmap_cons in Hk.
    apply elem_of_app in Hk as [Hk | Hk].
    - exfalso. apply Hk2, list_elem_of_In, HA. rewrite HM1. exact Hk.
    - apply elem_of_cons in Hk as [Hk | Hk]; [congruence |].
      apply list_elem_of_fmap in Hk as (q & Hq & Hin). eauto. }
  destruct Hq as (q & HqM3 & Hqk).
  destruct p as [pk pc], q as [qk qc]. simpl in Hp, Hqk. subst pk qk.
  assert (pc = c1) as ->.
  { apply (NoDup_keys_functional cnt k1); [exact Hnd | | exact Hin1].
    rewrite Hcnt. apply elem_of_app. right. apply list_elem_of_here. }
  assert (qc = c2) as ->.
  { apply (NoDup_keys_functional cnt k2); [exact Hnd | | exact Hin2].
    rewrite Hcnt. apply elem_of_app. right.
    apply list_elem_of_further, HqM3. }
  apply list_elem_of_split in HqM3 as (l2 & l3 & ->).
  exists M1, l2, l3. exact Hcnt.
Qed.

Lemma insert_desc_Permutation (x : string * Z) (l : Counter) :
  insert_desc x l ≡ₚ x :: l.
Proof.
  induction l as [| y l IH]; simpl; [reflexivity |].
  destruct (snd y <=? snd x)%Z; [reflexivity |].
  rewrite IH. apply Permutation_swap.
Qed.

Lemma sorted_desc_Permutation (l : Counter) : sorted_desc l ≡ₚ l.
Proof.
  induction l as [| x l IH]; simpl; [reflexivity |].
  rewrite insert_desc_Permutation, IH. reflexivity.
Qed.

(** Where [insert_desc] puts the new item: after the items of strictly
    higher count that lead the list, before everything else. *)
Lemma insert_desc_split (x : string * Z) (l : Counter) :
  exists l1 l2 : Counter,
    l = l1 ++ l2 /\
    insert_desc x l = l1 ++ x :: l2 /\
    Forall (fun y => snd x < snd y) l1.
Proof.
  induction l as [| y l IH]; simpl.
  - exists [], []. repeat split. constructor.
  - destruct (Z.leb_spec (snd y) (snd x)) as [Hle | Hgt].
    + exists [], (y :: l). repeat split. constructor.
    + destruct IH as (l1 & l2 & -> & -> & Hall).
      exists (y :: l1), l2. repeat split. constructor; assumption.
Qed.

Lemma insert_desc_sorted (x : string * Z) (l : Counter) :
  StronglySorted (fun a b => snd b <= snd a) l ->
  StronglySorted (fun a b => snd b <= snd a) (insert_desc x l).
Proof.
  induction l as [| y l IH]; simpl; intros Hs.
  - repeat constructor.
  - apply StronglySorted_inv in Hs as [Hl Hy].
    destruct (Z.leb_spec (snd y) (snd x)) as [Hle | Hgt].
    + constructor; [constructor; assumption |].
      constructor; [exact Hle |].
      eapply Forall_impl; [exact Hy |]. simpl. intros z Hz. lia.
    + constructor; [apply IH, Hl |].
      rewrite insert_desc_Permutation. constructor; [lia | exact Hy].
Qed.

Lemma sorted_desc_sorted (l : Counter) :
  StronglySorted (fun a b => snd b <= snd a) (sorted_desc l).
Proof.
  induction l as [| x l IH]; simpl; [constructor |].
  apply insert_desc_sorted, IH.
Qed.

(** The sort is stable downwards: an item that stood before another of no
    higher count still stands before it. *)
Lemma sorted_desc_stable (l : Counter) (x y : string * Z) :
  precedes x y l -> snd y <= snd x -> precedes x y (sorted_desc l).
Proof.
  rewrite !precedes_sublist. intros Hsub Hle.
  induction l as [| z l IH]; simpl; [inversion Hsub |].
  destruct (insert_desc_split z (sorted_desc l)) as (l1 & l2 & Hl & -> & Hall).
  apply sublist_cons_r in Hsub as [Hsub | (l' & Heq & Hsub)].
  - specialize (IH Hsub). rewrite Hl in IH.
    etransitivity; [exact IH |].
    apply sublist_app; [reflexivity | by apply sublist_cons].
  - inversion Heq; subst z l'. clear Heq.
    apply sublist_inserts_l, sublist_skip, singleton_sublist_l.
    apply singleton_sublist_l in Hsub.
    rewrite <- (sorted_desc_Permutation l), Hl in Hsub.
    apply elem_of_app in Hsub as [Hy | Hy]; [| exact Hy].
    rewrite Forall_forall in Hall. specialize (Hall y Hy). lia.
Qed.

(** Cutting a duplicate-free list keeps the order of what it keeps. *)
Lemma precedes_take {A} (l : list A) (n : nat) (x y : A) :
  NoDup l -> precedes x y l -> y ∈ take n l -> precedes x y (take n l).
Proof.
  rewrite !precedes_sublist. intros Hnd Hsub Hy.
  rewrite <- (take_drop n l) in Hnd, Hsub.
  apply NoDup_app in Hnd as (_ & Hdisj & _).
  apply sublist_app_r in Hsub as (s1 & s2 & Heq & Hs1 & Hs2).
  assert (Hno : y ∉ drop n l) by (apply Hdisj, Hy).
  destruct s1 as [| a [| b s1]]; simpl in Heq.
  - subst s2. destruct Hno. eapply sublist_subseteq; [exact Hs2 |].
    apply list_elem_of_further, list_elem_of_here.
  - inversion Heq; subst. destruct Hno.
    apply singleton_sublist_l, Hs2.
  - inversion Heq as [[Ha Hb Hs]]. subst a b.
    symmetry in Hs. apply app_eq_nil in Hs as [-> ->]. exact Hs1.
Qed.

(** C7, amended: [most_common(n)] on the counter built from a sequence
    returns the [min n (number of keys)] (key, count) pairs of highest
    count, highest first: every pair left out counts no more than any
    pair returned.  Pairs of equal count come in the order in which the
    counter hands out its items, whatever that order is; when it is
    insertion order, of two keys with equal counts the one first met in
    the sequence comes first. *)
Theorem most_common_ties_in_iteration_order
    (order : Counter -> Counter) (elems : list string) (n : nat) :
  Permutation (order (counter_of elems)) (counter_of elems) ->
  length (most_common_in order n (counter_of elems))
    = Nat.min n (length (counter_of elems)) /\
  (exists rest : Counter,
      Permutation (most_common_in order n (counter_of elems) ++ rest)
                  (counter_of elems) /\
      StronglySorted (fun a b => snd b <= snd a)
                     (most_common_in order n (counter_of elems) ++ rest) /\
      forall x y : string * Z,
        In x (most_common_in order n (counter_of elems)) ->
        In y rest -> snd y <= snd x) /\
  (forall x y : string * Z,
      precedes x y (order (counter_of elems)) ->
      snd x = snd y ->
      In y (most_common_in order n (counter_of elems)) ->
      precedes x y (most_common_in order n (counter_of elems))) /\
  (order (counter_of elems) = insertion_order (counter_of elems) ->
   forall (k1 k2 : string) (c : Z),
     first_seen_before k1 k2 elems ->
     k1 <> k2 ->
     In (k1, c) (counter_of elems) ->
     In (k2, c) (most_common_in order n (counter_of elems)) ->
     precedes (k1, c) (k2, c) (most_common_in order n (counter_of elems))).
Proof.
  intros Hperm. unfold most_common_in, most_common.
  set (cnt := counter_of elems) in *.
  assert (Hsorted_perm : sorted_desc (order cnt) ≡ₚ cnt).
  { rewrite sorted_desc_Permutation. exact Hperm. }
  assert (Hnd : NoDup (sorted_desc (order cnt))).
  { rewrite Hsorted_perm. apply (NoDup_fmap_1 fst), counter_of_NoDup. }
  assert (Hstable : forall x y : string * Z,
             precedes x y (order cnt) -> snd x = snd y ->
             In y (take n (sorted_desc (order cnt))) ->
             precedes x y (take n (sorted_desc (order cnt)))).
  { intros x y Hxy Heq Hy. apply list_elem_of_In in Hy.
    apply precedes_take; [exact Hnd | | exact Hy].
    apply sorted_desc_stable; [exact Hxy | lia]. }
  split; [| split; [| split]].
  - rewrite length_take, (Permutation_length Hsorted_perm). reflexivity.
  - exists (drop n (sorted_desc (order cnt))). rewrite take_drop.
    split; [exact Hsorted_perm |]. split; [apply sorted_desc_sorted |].
    intros x y Hx Hy. apply list_elem_of_In in Hx, Hy.
    pose proof (sorted_desc_sorted (order cnt)) as Hs.
    rewrite <- (take_drop n (sorted_desc (order cnt))) in Hs.
    exact (StronglySorted_app_1_elem_of _ _ _ x y Hs Hx Hy).
  - exact Hstable.
  - unfold insertion_order. intros Hins k1 k2 c Hseen Hne Hin1 Hin2.
    apply Hstable; [| reflexivity | exact Hin2].
    rewrite Hins. apply list_elem_of_In in Hin1, Hin2.
    assert (Hk2 : (k2, c) ∈ cnt).
    { rewrite <- Hsorted_perm.
      eapply sublist_subseteq; [apply sublist_take | exact Hin2]. }
    apply counter_of_first_seen; assumption.
Qed.

Lemma most_common_ties_in_iteration_order_witness :
  Permutation (reversed_order (counter_of sample_types))
              (counter_of sample_types) /\
  most_common_in reversed_order 2 (counter_of sample_types)
    = [("Douglas DC-3", 2); ("Fokker", 2)] /\
  length (most_common_in reversed_order 2 (counter_of sample_types))
    = Nat.min 2 (length (counter_of sample_types)).
Proof.
  assert (Hperm : Permutation (reversed_order (counter_of sample_types))
                              (counter_of sample_types))
    by (symmetry; apply Permutation_rev).
  split; [exact Hperm |]. split; [reflexivity |].
  exact (proj1 (most_common_ties_in_iteration_order
                  reversed_order sample_types 2 Hperm)).
Defined.

(** C7 as stated fails.  A counter of three keys cannot give ten: all three
    pairs come back.  And first-seen order is not what decides a tie: with
    the items handed out in another order, as a CPython 3.5 hash table
    may, "Douglas DC-3" comes before "Fokker" though "Fokker" was met
    first and both count 2. *)
Lemma top_n_first_seen_fails :
  length (most_common_in insertion_order 10 (counter_of sample_types)) = 3%nat /\
  first_seen_before "Fokker" "Douglas DC-3" sample_types /\
  most_common_in reversed_order 2 (counter_of sample_types)
    = [("Douglas DC-3", 2); ("Fokker", 2)] /\
  ~ precedes ("Fokker", 2) ("Douglas DC-3", 2)
      (most_common_in reversed_order 2 (counter_of sample_types)).
Proof.
  split; [reflexivity |]. split; [| split; [reflexivity |]].
  - exists [], ["Douglas DC-3"; "Douglas DC-3"; "Fokker"; "Zeppelin L-1"].
    repeat split; intros [].
  - change (most_common_in reversed_order 2 (counter_of sample_types))
      with [("Douglas DC-3", 2); ("Fokker", 2)].
    intros (l1 & l2 & l3 & H).
    destruct l1 as [| a [| b l1]]; simpl in H.
    + discriminate H.
    + injection H as _ H. destruct l2; discriminate H.
    + injection H as _ _ H. destruct l1; discriminate H.
Qed.

(** A key met first but counted last, and a tie between the two others. *)
Example most_common_reorders :
  counter_of ["Zeppelin L-1"; "Fokker"; "Douglas DC-3"; "Douglas DC-3"; "Fokker"]
    = [("Zeppelin L-1", 1); ("Fokker", 2); ("Douglas DC-3", 2)] /\
  most_common 2
    (counter_of ["Zeppelin L-1"; "Fokker"; "Douglas DC-3"; "Douglas DC-3"; "Fokker"])
    = [("Fokker", 2); ("Douglas DC-3", 2)] /\
  most_common 10
    (counter_of ["Zeppelin L-1"; "Fokker"; "Douglas DC-3"; "Douglas DC-3"; "Fokker"])
    = [("Fokker", 2); ("Douglas DC-3", 2); ("Zeppelin L-1", 1)].
Proof. repeat split; reflexivity. Qed.

(** ** The paging loop *)

Section PagingFacts.

Context {World : Type}.
Variable requests_get : string -> World -> result Response * World.

Let turn := paging_body requests_get.
Let run := paging_loop requests_get.

(** The loop variable is not read. *)
Lemma paging_turns_shift (n a b : nat) :
  forall st : paging World,
    for_each turn st (seq a n) = for_each turn st (seq b n).
Proof.
  revert a b. induction n as [| n IH]; intros a b st; simpl; [reflexivity |].
  replace (turn st a) with (turn st b) by reflexivity.
  destruct (turn st b); [apply IH | reflexivity].
Qed.

Lemma paging_loop_add (k m : nat) (st : paging World) :
  run (k + m) st =
  match run k st with
  | Done st' => run m st'
  | Raised e st' => Raised e st'
  end.
Proof.
  unfold run, paging_loop. rewrite seq_app, for_each_app.
  destruct (for_each _ st (seq 0 k)); [| reflexivity].
  apply paging_turns_shift.
Qed.

(** A turn that completes has made one request and appended one page. *)
Lemma paging_body_Done (st st' : paging World) (x : nat) :
  turn st x = Done st' ->
  length (data_sets st') = S (length (data_sets st)) /\
  length (requested st') = S (length (requested st)).
Proof.
  unfold turn, paging_body.
  destruct (before st) as [cursor |]; [| discriminate].
  destruct (str_add listing_url cursor) as [url |]; [| discriminate].
  destruct (requests_get url (world st)) as [r w'].
  destruct (r ≫= Response_json) as [page |]; [| discriminate].
  destruct (after_of page); [| discriminate].
  intros [= <-]. simpl. rewrite !length_app. simpl. lia.
Qed.

Lemma paging_loop_Done (k : nat) :
  forall st st' : paging World,
    run k st = Done st' ->
    length (data_sets st') = (length (data_sets st) + k)%nat /\
    length (requested st') = (length (requested st) + k)%nat.
Proof.
  unfold run, paging_loop.
  induction k as [| k IH]; intros st st' Hrun.
  - injection Hrun as <-. lia.
  - replace (S k) with (1 + k)%nat in Hrun by reflexivity.
    rewrite seq_app, for_each_app in Hrun. simpl in Hrun.
    destruct (paging_body requests_get st 0) as [st1 | e st1] eqn:Hb;
      [| discriminate].
    apply paging_body_Done in Hb as [Hd Hr].
    rewrite (paging_turns_shift k 1 0) in Hrun.
    apply IH in Hrun as [Hd' Hr']. lia.
Qed.

(** A cursor that is a string, the empty one included, is sent: the turn
    makes its request. *)
Lemma string_cursor_is_requested (st : paging World) (x : nat) (c : string) :
  before st = Some (JStr c) ->
  requested (state_of (turn st x)) =
  requested st ++ [String.append listing_url c].
Proof.
  intros Hc. unfold turn, paging_body. rewrite Hc. simpl.
  destruct (requests_get _ (world st)) as [r w'].
  destruct (r ≫= Response_json) as [page |]; [| reflexivity].
  destruct (after_of page); reflexivity.
Qed.

(** C1, amended: when after [k] turns the cursor is null and turns are
    still due, the loop requests no further page; it does not complete
    either, but stops there with the [TypeError] of adding [None] to the
    URL, [data_sets] holding the first page and the [k] pages collected
    so far and nothing else. *)
Theorem null_cursor_stops_with_TypeError
    (n k : nat) (st st' : paging World) :
  paging_loop requests_get k st = Done st' ->
  before st' = Some JNull ->
  (k < n)%nat ->
  paging_loop requests_get n st = Raised TypeError st' /\
  length (data_sets st') = (length (data_sets st) + k)%nat /\
  length (requested st') = (length (requested st) + k)%nat.
Proof.
  intros Hrun Hnull Hlt. split; [| exact (paging_loop_Done k st st' Hrun)].
  replace n with (k + S (n - k - 1))%nat by lia.
  fold run in Hrun |- *. rewrite paging_loop_add, Hrun.
  unfold run, paging_loop. simpl. unfold paging_body. rewrite Hnull.
  reflexivity.
Qed.

(** C2, amended: when after [k] turns the next request raises, or its
    body is not JSON, and turns are still due, the loop stops at once
    with that very exception ([RequestException] or [ValueError], which
    carry no page index); the one failed request has been made and none
    after it, and [data_sets] holds exactly the pages collected before
    it. *)
Theorem failed_request_stops_loop
    (n k : nat) (st st' : paging World) (cursor : string)
    (r : result Response) (w' : World) (e : exn) :
  paging_loop requests_get k st = Done st' ->
  before st' = Some (JStr cursor) ->
  requests_get (String.append listing_url cursor) (world st') = (r, w') ->
  r ≫= Response_json = Err e ->
  (k < n)%nat ->
  paging_loop requests_get n st =
    Raised e {| world := w';
                data_sets := data_sets st';
                before := before st';
                requested :=
                  requested st' ++ [String.append listing_url cursor] |} /\
  length (data_sets st') = (length (data_sets st) + k)%nat /\
  length (requested st') = (length (requested st) + k)%nat.
Proof.
  intros Hrun Hcur Hget Hfail Hlt.
  split; [| exact (paging_loop_Done k st st' Hrun)].
  replace n with (k + S (n - k - 1))%nat by lia.
  fold run in Hrun |- *. rewrite paging_loop_add, Hrun.
  unfold run, paging_loop. simpl. unfold paging_body.
  rewrite Hcur. simpl. rewrite Hget, Hfail. reflexivity.
Qed.

End PagingFacts.

Lemma null_cursor_stops_with_TypeError_witness :
  paging_loop (served_get site_abc) 1 abc_start = Done abc_stopped /\
  before abc_stopped = Some JNull /\
  paging_loop (served_get site_abc) 10 abc_start
    = Raised TypeError abc_stopped /\
  length (data_sets abc_stopped) = 2%nat /\
  length (requested abc_stopped) = 1%nat.
Proof.
  split; [vm_compute; reflexivity |]. split; [reflexivity |].
  apply (null_cursor_stops_with_TypeError (served_get site_abc)
           10 1 abc_start abc_stopped);
    [vm_compute; reflexivity | reflexivity | lia].
Defined.

(** C1 as stated fails.  With a first page of cursor ["abc"] and a second
    page of cursor [null] the cell does not return two pages: it raises
    [TypeError].  And a cursor that is the empty string stops nothing: all
    ten requests are made and eleven pages returned. *)
Lemma sentinel_cursor_no_early_return :
  paging_cell (served_get site_abc) page_abc 0%nat
    = Raised TypeError abc_stopped /\
  exists st : paging nat,
    paging_cell (served_get site_blank) page_blank 0%nat = Done st /\
    length (data_sets st) = 11%nat /\
    requested st = repeat listing_url 10.
Proof.
  split; [vm_compute; reflexivity |].
  eexists. split; [vm_compute; reflexivity |].
  split; vm_compute; reflexivity.
Qed.

Lemma failed_request_stops_loop_witness :
  paging_loop (served_get site_unreachable) 1 a_start = Done a_then_b /\
  served_get site_unreachable (String.append listing_url "b") (world a_then_b)
    = (Err RequestException, 2%nat) /\
  paging_loop (served_get site_unreachable) 10 a_start =
    Raised RequestException
      {| world := 2%nat;
         data_sets := data_sets a_then_b;
         before := before a_then_b;
         requested := requested a_then_b ++ [String.append listing_url "b"] |} /\
  length (data_sets a_then_b) = 2%nat /\
  length (requested a_then_b) = 1%nat.
Proof.
  split; [vm_compute; reflexivity |]. split; [vm_compute; reflexivity |].
  apply (failed_request_stops_loop (served_get site_unreachable)
           10 1 a_start a_then_b "b" (Err RequestException) 2%nat
           RequestException);
    [vm_compute; reflexivity | reflexivity | vm_compute; reflexivity
    | reflexivity | lia].
Defined.

(** The same holds for a body that is not JSON. *)
Example not_json_stops_loop :
  paging_cell (served_get site_not_json) page_a 0%nat =
    Raised ValueError
      {| world := 2%nat;
         data_sets := [page_a; page_b];
         before := Some (JStr "b");
         requested := [String.append listing_url "a";
                       String.append listing_url "b"] |}.
Proof. vm_compute. reflexivity. Qed.

(** C2 as stated fails.  When the third page cannot be fetched, what
    comes out is the bare [RequestException], with no page index in it.
    And a non-success answer is no failure to the loop: the 429 body is
    appended to [data_sets] like a page, and only reading its cursor raises
    [KeyError]. *)
Lemma failure_is_no_FetchError :
  paging_cell (served_get site_unreachable) page_a 0%nat =
    Raised RequestException
      {| world := 2%nat;
         data_sets := [page_a; page_b];
         before := Some (JStr "b");
         requested := [String.append listing_url "a";
                       String.append listing_url "b"] |} /\
  paging_cell (served_get site_429) page_a 0%nat =
    Raised KeyError
      {| world := 2%nat;
         data_sets := [page_a; page_b; too_many_requests];
         before := Some (JStr "b");
         requested := [String.append listing_url "a";
                       String.append listing_url "b"] |}.
Proof. split; vm_compute; reflexivity. Qed.

(** ** The score loop *)

(** The loop and the comprehension read the same cells and fail alike;
    where the loop appends one list per page, the comprehension appends
    the scores themselves. *)
Lemma scores_concise_concat (data_sets : list json) :
  scores_concise data_sets = (ls ← scores_loop data_sets; Ok (concat ls)).
Proof.
  induction data_sets as [| y rest IH]; simpl; [reflexivity |].
  destruct (children_of y) as [children |]; simpl; [| reflexivity].
  destruct (dataset_scores children) as [ds |]; simpl; [| reflexivity].
  rewrite IH. destruct (scores_loop rest); reflexivity.
Qed.

(** The loop keeps one entry per page. *)
Lemma scores_loop_length (data_sets : list json) (ls : list (list json)) :
  scores_loop data_sets = Ok ls -> length ls = length data_sets.
Proof.
  revert ls. induction data_sets as [| y rest IH]; simpl; intros ls.
  - intros [= <-]. reflexivity.
  - destruct (children_of y) as [children |]; simpl; [| discriminate].
    destruct (dataset_scores children) as [ds |]; simpl; [| discriminate].
    destruct (scores_loop rest) as [ls' |]; simpl; [| discriminate].
    intros [= <-]. simpl. f_equal. apply IH. reflexivity.
Qed.

(** C4: on two pages, of two posts and one post, the loop binds [scores]
    to a list of two lists, one per page, not to one flat sequence; the
    comprehension kept next to it under "More concise" yields the flat
    sequence, in page order and then in order within the page. *)
Theorem scores_loop_is_nested :
  scores_value [page_abc; page_end]
    = Ok (JArr [JArr [JNum 10; JNum 20]; JArr [JNum 7]]) /\
  scores_concise_value [page_abc; page_end]
    = Ok (JArr [JNum 10; JNum 20; JNum 7]).
Proof. split; vm_compute; reflexivity. Qed.

(** * Further properties *)

(** ** What the tally holds, year by year *)

Lemma tally_body_of_readable (d : gmap Z Z) (r : row) :
  readable r = true ->
  exists y : Z,
    year_of r = Ok y /\
    tally_body d r =
      Done (if has_count r then defaultdict_add d y (fatality_value r) else d).
Proof.
  unfold readable, tally_body, has_count, fatality_value.
  destruct (year_of r) as [y|]; [| discriminate].
  destruct (getitem r 11) as [cell|]; [| discriminate].
  intros H. exists y. split; [reflexivity |].
  destruct (truthy cell); [| reflexivity].
  destruct (int cell); [reflexivity | discriminate].
Qed.

Lemma tally_body_Done_readable (d d' : gmap Z Z) (r : row) :
  tally_body d r = Done d' -> readable r = true.
Proof.
  unfold readable, tally_body.
  destruct (year_of r) as [y|]; [| discriminate].
  destruct (getitem r 11) as [cell|]; [| discriminate].
  destruct (truthy cell); [| reflexivity].
  destruct (int cell); [reflexivity | discriminate].
Qed.

Lemma tally_loop_Done_readable (rows : list row) :
  forall d0 d : gmap Z Z,
    for_each tally_body d0 rows = Done d -> forallb readable rows = true.
Proof.
  induction rows as [| r rows IH]; intros d0 d; simpl; [reflexivity |].
  destruct (tally_body d0 r) as [d1 | e d1] eqn:Hb; [| discriminate].
  intros Hrun. rewrite (tally_body_Done_readable _ _ _ Hb). simpl.
  exact (IH _ _ Hrun).
Qed.

Lemma well_formed_readable (r : row) : well_formed r = true -> readable r = true.
Proof.
  unfold well_formed, readable.
  intros H. apply andb_prop in H as [_ H]. revert H.
  destruct (year_of r); [| discriminate].
  destruct (getitem r 11) as [cell|]; [| discriminate].
  destruct (truthy cell); [| reflexivity].
  destruct (int cell); [reflexivity | discriminate].
Qed.

Lemma well_formed_value_nonneg (r : row) :
  well_formed r = true -> 0 <= fatality_value r.
Proof.
  unfold well_formed, fatality_value.
  intros H. apply andb_prop in H as [_ H]. revert H.
  destruct (year_of r); [| discriminate].
  destruct (getitem r 11) as [cell|]; [| discriminate].
  destruct (truthy cell); [| lia].
  destruct (int cell); [| discriminate]. lia.
Qed.

Lemma year_total_cons (y : Z) (r : row) (rows : list row) :
  year_total y (r :: rows) =
  (if counted_in y r then fatality_value r else 0) + year_total y rows.
Proof.
  unfold year_total. simpl. destruct (counted_in y r); reflexivity.
Qed.

Lemma year_total_none (y : Z) (rows : list row) :
  existsb (counted_in y) rows = false -> year_total y rows = 0.
Proof.
  induction rows as [| r rows IH]; [reflexivity |]. simpl.
  intros H. apply orb_false_iff in H as [Hr Hrows].
  rewrite year_total_cons, Hr, (IH Hrows). reflexivity.
Qed.

Lemma year_total_app (y : Z) (a b : list row) :
  year_total y (a ++ b) = year_total y a + year_total y b.
Proof.
  induction a as [| r a IH]; simpl.
  - unfold year_total at 2. simpl. lia.
  - rewrite !year_total_cons, IH. lia.
Qed.

(** The loop from any dictionary on readable rows: under each year, what
    was there plus the cells counted in that year; a year with no counted
    cell is left as it was. *)
Lemma tally_loop_lookup (rows : list row) :
  forall d0 : gmap Z Z,
    forallb readable rows = true ->
    exists d : gmap Z Z,
      for_each tally_body d0 rows = Done d /\
      forall y : Z,
        d !! y =
        if existsb (counted_in y) rows
        then Some (default 0 (d0 !! y) + year_total y rows)
        else d0 !! y.
Proof.
  induction rows as [| r rows IH]; intros d0 Hrd; simpl in *.
  - exists d0. split; reflexivity.
  - apply andb_prop in Hrd as [Hr Hrows].
    destruct (tally_body_of_readable d0 r Hr) as (yr & Hyr & ->).
    assert (Hcnt : forall y : Z,
               counted_in y r = (yr =? y)%Z && has_count r).
    { intros y. unfold counted_in. rewrite Hyr. reflexivity. }
    destruct (has_count r) eqn:Hc.
    + destruct (IH (defaultdict_add d0 yr (fatality_value r)) Hrows)
        as (d & -> & Hd).
      exists d. split; [reflexivity |]. intros y.
      rewrite Hd, year_total_cons, !Hcnt. unfold defaultdict_add.
      destruct (Z.eqb_spec yr y) as [-> | Hne]; simpl.
      * rewrite lookup_insert_eq. simpl.
        destruct (existsb (counted_in y) rows) eqn:Hex.
        -- f_equal. lia.
        -- rewrite (year_total_none y rows Hex). f_equal. lia.
      * rewrite lookup_insert_ne by exact Hne. reflexivity.
    + destruct (IH d0 Hrows) as (d & -> & Hd).
      exists d. split; [reflexivity |]. intros y.
      rewrite Hd, year_total_cons, !Hcnt, andb_false_r. reflexivity.
Qed.

(** X1: when the tally loop completes, the value under each year is the sum
    of the non-blank fatality cells of the data rows dated in that year,
    and a year with no such row is no key. *)
Theorem tally_year_totals (airplane_data : list row) (d : gmap Z Z) :
  tally airplane_data = Done d ->
  forall y : Z,
    d !! y =
    if existsb (counted_in y) (slice_from_1 airplane_data)
    then Some (year_total y (slice_from_1 airplane_data))
    else None.
Proof.
  unfold tally. intros Hrun y.
  pose proof (tally_loop_Done_readable _ _ _ Hrun) as Hrd.
  destruct (tally_loop_lookup _ ∅ Hrd) as (d' & Hrun' & Hd).
  rewrite Hrun in Hrun'. injection Hrun' as <-.
  rewrite Hd, lookup_empty. simpl.
  destruct (existsb _ _); [f_equal; lia | reflexivity].
Qed.

Lemma tally_year_totals_witness :
  tally mixed_rows = Done {[1912 := 5; 1913 := 44]} /\
  ({[1912 := 5; 1913 := 44]} : gmap Z Z) !! 1913 =
    (if existsb (counted_in 1913) (slice_from_1 mixed_rows)
     then Some (year_total 1913 (slice_from_1 mixed_rows))
     else None) /\
  year_total 1913 (slice_from_1 mixed_rows) = 44.
Proof.
  assert (Hrun : tally mixed_rows = Done {[1912 := 5; 1913 := 44]})
    by (vm_compute; reflexivity).
  split; [exact Hrun |]. split; [| reflexivity].
  exact (tally_year_totals mixed_rows _ Hrun 1913).
Defined.

Lemma existsb_Permutation {A} (f : A -> bool) (l l' : list A) :
  l ≡ₚ l' -> existsb f l = existsb f l'.
Proof.
  induction 1 as [| x l l' _ IH | x y l | l l' l'' _ IH1 _ IH2]; simpl.
  - reflexivity.
  - rewrite IH. reflexivity.
  - destruct (f x), (f y); reflexivity.
  - congruence.
Qed.

Lemma forallb_Permutation {A} (f : A -> bool) (l l' : list A) :
  l ≡ₚ l' -> forallb f l = forallb f l'.
Proof.
  induction 1 as [| x l l' _ IH | x y l | l l' l'' _ IH1 _ IH2]; simpl.
  - reflexivity.
  - rewrite IH. reflexivity.
  - destruct (f x), (f y); reflexivity.
  - congruence.
Qed.

Lemma year_total_Permutation (y : Z) (rows rows' : list row) :
  rows ≡ₚ rows' -> year_total y rows = year_total y rows'.
Proof.
  induction 1 as [| x l l' _ IH | x z l | l l' l'' _ IH1 _ IH2].
  - reflexivity.
  - rewrite !year_total_cons, IH. reflexivity.
  - rewrite !year_total_cons. lia.
  - congruence.
Qed.

(** X2: the order of the data rows does not matter to a tally that
    completes: any rearrangement of the data rows, under any header,
    completes with the same mapping. *)
Theorem tally_order_free
    (header header' : row) (rows rows' : list row) (d : gmap Z Z) :
  tally (header :: rows) = Done d ->
  Permutation rows rows' ->
  tally (header' :: rows') = Done d.
Proof.
  unfold tally. simpl. intros Hrun Hperm.
  pose proof (tally_loop_Done_readable _ _ _ Hrun) as Hrd.
  destruct (tally_loop_lookup rows ∅ Hrd) as (d1 & Hrun1 & Hd1).
  rewrite Hrun in Hrun1. injection Hrun1 as <-.
  rewrite (forallb_Permutation readable _ _ Hperm) in Hrd.
  destruct (tally_loop_lookup rows' ∅ Hrd) as (d2 & -> & Hd2).
  f_equal. apply map_eq. intros y.
  rewrite Hd1, Hd2, (existsb_Permutation _ _ _ Hperm),
    (year_total_Permutation y _ _ Hperm).
  reflexivity.
Qed.

Lemma tally_order_free_witness :
  tally mixed_rows = Done {[1912 := 5; 1913 := 44]} /\
  tally (header_row :: rev (slice_from_1 mixed_rows))
    = Done {[1912 := 5; 1913 := 44]}.
Proof.
  assert (Hrun : tally mixed_rows = Done {[1912 := 5; 1913 := 44]})
    by (vm_compute; reflexivity).
  split; [exact Hrun |].
  apply (tally_order_free header_row header_row
           (slice_from_1 mixed_rows) _ _ Hrun).
  apply Permutation_rev.
Defined.

(** X3: tallies add up: the tally of two batches of data rows one after
    the other is the year-wise sum of the tallies of each batch. *)
Theorem tally_of_concatenation
    (header : row) (a b : list row) (da db : gmap Z Z) :
  tally (header :: a) = Done da ->
  tally (header :: b) = Done db ->
  tally (header :: a ++ b)
    = Done (union_with (fun x y => Some (x + y)) da db).
Proof.
  unfold tally. simpl. intros Ha Hb.
  pose proof (tally_loop_Done_readable _ _ _ Ha) as Hra.
  pose proof (tally_loop_Done_readable _ _ _ Hb) as Hrb.
  destruct (tally_loop_lookup a ∅ Hra) as (da' & Ha' & Hda).
  rewrite Ha in Ha'. injection Ha' as <-.
  destruct (tally_loop_lookup b ∅ Hrb) as (db' & Hb' & Hdb).
  rewrite Hb in Hb'. injection Hb' as <-.
  assert (Hrab : forallb readable (a ++ b) = true)
    by (rewrite forallb_app, Hra, Hrb; reflexivity).
  destruct (tally_loop_lookup (a ++ b) ∅ Hrab) as (d & -> & Hd).
  f_equal. apply map_eq. intros y.
  rewrite lookup_union_with, Hd, Hda, Hdb, existsb_app, year_total_app,
    lookup_empty.
  destruct (existsb (counted_in y) a) eqn:Hea,
           (existsb (counted_in y) b) eqn:Heb; simpl.
  - f_equal; lia.
  - rewrite (year_total_none y b Heb). f_equal; lia.
  - rewrite (year_total_none y a Hea). f_equal; lia.
  - reflexivity.
Qed.

Lemma tally_of_concatenation_witness :
  tally (header_row :: slice_from_1 zero_rows) = Done {[1912 := 5; 1913 := 14]} /\
  tally (header_row :: slice_from_1 fokker_rows) = Done {[1920 := 3]} /\
  tally (header_row :: slice_from_1 zero_rows ++ slice_from_1 fokker_rows)
    = Done (union_with (fun x y => Some (x + y))
              {[1912 := 5; 1913 := 14]} {[1920 := 3]}).
Proof.
  assert (Ha : tally (header_row :: slice_from_1 zero_rows)
               = Done {[1912 := 5; 1913 := 14]}) by (vm_compute; reflexivity).
  assert (Hb : tally (header_row :: slice_from_1 fokker_rows)
               = Done {[1920 := 3]}) by (vm_compute; reflexivity).
  split; [exact Ha |]. split; [exact Hb |].
  exact (tally_of_concatenation header_row _ _ _ _ Ha Hb).
Defined.

Lemma year_total_nonneg (y : Z) (rows : list row) :
  forallb well_formed rows = true -> 0 <= year_total y rows.
Proof.
  induction rows as [| r rows IH]; simpl; intros Hwf.
  - unfold year_total. simpl. lia.
  - apply andb_prop in Hwf as [Hr Hrows].
    rewrite year_total_cons.
    pose proof (well_formed_value_nonneg r Hr).
    specialize (IH Hrows). destruct (counted_in y r); lia.
Qed.

(** X4: on well-formed data rows (non-negative counts) the tally completes
    and no year has a negative total. *)
Theorem tally_values_nonnegative (airplane_data : list row) :
  forallb well_formed (slice_from_1 airplane_data) = true ->
  exists d : gmap Z Z,
    tally airplane_data = Done d /\
    forall (y v : Z), d !! y = Some v -> 0 <= v.
Proof.
  intros Hwf. unfold tally.
  assert (Hrd : forallb readable (slice_from_1 airplane_data) = true).
  { rewrite forallb_forall in Hwf |- *.
    intros r Hr. apply well_formed_readable, Hwf, Hr. }
  destruct (tally_loop_lookup _ ∅ Hrd) as (d & Hrun & Hd).
  exists d. split; [exact Hrun |]. intros y v. rewrite Hd, lookup_empty.
  destruct (existsb _ _); [| discriminate].
  intros [= <-]. pose proof (year_total_nonneg y _ Hwf). simpl. lia.
Qed.

Lemma tally_values_nonnegative_witness :
  forallb well_formed (slice_from_1 mixed_rows) = true /\
  exists d : gmap Z Z,
    tally mixed_rows = Done d /\
    forall (y v : Z), d !! y = Some v -> 0 <= v.
Proof.
  split; [reflexivity |].
  apply (tally_values_nonnegative mixed_rows). reflexivity.
Defined.

(** ** What stops the tally loop *)

Lemma getitem_out_of_range {A} (l : list A) (i : nat) :
  (length l <= i)%nat -> getitem l i = Err IndexError.
Proof.
  intros H. unfold getitem. rewrite (lookup_ge_None_2 l i H). reflexivity.
Qed.

(** One turn on any row: it completes, or the row is malformed and
    [ValueError] comes out, or the row is too short and [IndexError] comes
    out; a turn that raises leaves the dictionary alone. *)
Lemma tally_body_cases (d : gmap Z Z) (r : row) :
  (exists d' : gmap Z Z, tally_body d r = Done d') \/
  (tally_body d r = Raised ValueError d /\ malformed r = true) \/
  (tally_body d r = Raised IndexError d /\
   malformed r = false /\ (length r < 12)%nat).
Proof.
  destruct (malformed r) eqn:Hm.
  { right. left. split; [apply tally_body_malformed, Hm | reflexivity]. }
  destruct (le_lt_dec 12 (length r)) as [Hlen | Hlen].
  { left. apply tally_body_readable; assumption. }
  right. right. split; [| split; [reflexivity | exact Hlen]].
  unfold tally_body. unfold malformed in Hm.
  destruct r as [| date r].
  - reflexivity.
  - destruct (year_of_cases (date :: r)) as [[y Hy] | Hy]; [simpl; lia | |].
    + rewrite Hy. rewrite getitem_out_of_range by lia. reflexivity.
    + rewrite Hy in Hm. discriminate.
Qed.

(** X5: the tally loop can only stop with [ValueError] or [IndexError]. It
    stops at the first data row that is malformed ([ValueError]) or, not
    being malformed, has fewer than twelve fields ([IndexError], as for
    the empty row of a blank line); the dictionary then holds the tally of
    the rows before that one. *)
Theorem tally_stops_at_first_bad_row
    (airplane_data : list row) (e : exn) (d : gmap Z Z) :
  tally airplane_data = Raised e d ->
  exists (pre : list row) (r : row) (post : list row),
    slice_from_1 airplane_data = pre ++ r :: post /\
    for_each tally_body ∅ pre = Done d /\
    ((e = ValueError /\ malformed r = true) \/
     (e = IndexError /\ malformed r = false /\ (length r < 12)%nat)).
Proof.
  unfold tally. generalize (slice_from_1 airplane_data) as rows.
  generalize (∅ : gmap Z Z) as d0.
  intros d0 rows. revert d0.
  induction rows as [| r rows IH]; intros d0; simpl; [discriminate |].
  destruct (tally_body_cases d0 r)
    as [[d1 Hb] | [[Hb Hm] | (Hb & Hm & Hlen)]]; rewrite Hb.
  - intros Hrun. destruct (IH d1 Hrun) as (pre & r' & post & -> & Hpre & Hr').
    exists (r :: pre), r', post. simpl. rewrite Hb.
    split; [reflexivity | split; [exact Hpre | exact Hr']].
  - intros [= <- <-]. exists [], r, rows.
    split; [reflexivity | split; [reflexivity | left; split; [reflexivity | exact Hm]]].
  - intros [= <- <-]. exists [], r, rows.
    split; [reflexivity | split; [reflexivity | right; repeat split; assumption]].
Qed.

Lemma tally_stops_at_first_bad_row_witness :
  tally short_rows = Raised IndexError {[1920 := 3]} /\
  exists (pre : list row) (r : row) (post : list row),
    slice_from_1 short_rows = pre ++ r :: post /\
    for_each tally_body ∅ pre = Done {[1920 := 3]} /\
    ((IndexError = ValueError /\ malformed r = true) \/
     (IndexError = IndexError /\ malformed r = false /\ (length r < 12)%nat)).
Proof.
  assert (Hrun : tally short_rows = Raised IndexError {[1920 := 3]})
    by (vm_compute; reflexivity).
  split; [exact Hrun |].
  exact (tally_stops_at_first_bad_row short_rows _ _ Hrun).
Defined.

(** A blank line of the file is an empty row; the date of a short row is
    still looked at first. *)
Example blank_line_row :
  tally [header_row; []] = Raised IndexError ∅ /\
  tally [header_row; ["no date"]] = Raised ValueError ∅.
Proof. split; vm_compute; reflexivity. Qed.

(** ** What the tally loop reads *)

Lemma tally_body_same_cells (d : gmap Z Z) (r r' : row) :
  r !! 0%nat = r' !! 0%nat -> r !! 11%nat = r' !! 11%nat ->
  tally_body d r = tally_body d r'.
Proof.
  intros H0 H11. unfold tally_body, year_of, getitem.
  rewrite H0, H11. reflexivity.
Qed.

(** X6: the tally depends on the date and fatality cells of the data rows
    (fields 0 and 11) and on nothing else: two tables whose data rows agree
    on these two fields end in the same outcome, whatever their headers
    and other fields hold. *)
Theorem tally_reads_date_and_count_only
    (header header' : row) (rows rows' : list row) :
  Forall2 (fun r r' => r !! 0%nat = r' !! 0%nat /\ r !! 11%nat = r' !! 11%nat)
          rows rows' ->
  tally (header :: rows) = tally (header' :: rows').
Proof.
  unfold tally. simpl. generalize (∅ : gmap Z Z) as d0.
  intros d0 H. revert d0.
  induction H as [| r r' rows rows' [H0 H11] _ IH]; intros d0; simpl.
  - reflexivity.
  - rewrite (tally_body_same_cells d0 r r' H0 H11).
    destruct (tally_body d0 r'); [apply IH | reflexivity].
Qed.

Lemma tally_reads_date_and_count_only_witness :
  tally [header_row; incident_row "1/1/1920" "Fokker" "3"]
  = tally [[]; ["1/1/1920"; "a"; "b"; "c"; "d"; "e"; "f"; "g"; "h"; "i";
                "j"; "3"]].
Proof.
  apply (tally_reads_date_and_count_only header_row []
           [incident_row "1/1/1920" "Fokker" "3"]
           [["1/1/1920"; "a"; "b"; "c"; "d"; "e"; "f"; "g"; "h"; "i";
             "j"; "3"]]).
  repeat constructor.
Defined.

(** ** The year of a date *)

Lemma str_split_no_sep (sep : ascii) (s : string) :
  has_char sep s = false -> str_split sep s = [s].
Proof.
  induction s as [| c s IH]; simpl; [reflexivity |].
  intros H. apply orb_false_iff in H as [Hc Hs].
  rewrite Hc, (IH Hs). reflexivity.
Qed.

(** Splitting at a separator: the pieces of what follows it come last. *)
Lemma str_split_append (sep : ascii) (a b : string) :
  exists front : list string,
    front <> [] /\
    str_split sep (String.append a (String sep b)) = front ++ str_split sep b.
Proof.
  induction a as [| c a (front & Hne & IH)]; simpl.
  - rewrite Ascii.eqb_refl. exists [EmptyString]. split; [discriminate | reflexivity].
  - destruct (Ascii.eqb c sep).
    + exists (EmptyString :: front). split; [discriminate |].
      rewrite IH. reflexivity.
    + rewrite IH. destruct front as [| p ps]; [contradiction |].
      exists (String c p :: ps). split; [discriminate | reflexivity].
Qed.

(** X7: the year of a row is read from what follows the last [/] of its
    date cell, and from the whole cell when it has no [/]; the month and
    day parts are never converted. *)
Theorem year_is_after_last_slash
    (before_slash y : string) (rest : row) :
  has_char "/" y = false ->
  year_of (String.append before_slash (String "/" y) :: rest) = int y /\
  year_of (y :: rest) = int y.
Proof.
  intros Hy. unfold year_of, getitem, getitem_last. simpl.
  rewrite (str_split_no_sep "/" y Hy). split; [| reflexivity].
  destruct (str_split_append "/" before_slash y) as (front & _ & ->).
  rewrite (str_split_no_sep "/" y Hy), last_snoc. reflexivity.
Qed.

Lemma year_is_after_last_slash_witness :
  year_of (incident_row "not a month/17/1908" "" "") = Ok 1908 /\
  year_of ["1908"] = Ok 1908.
Proof.
  destruct (year_is_after_last_slash "not a month/17" "1908" [] eq_refl)
    as [_ H2].
  split; [| exact H2].
  exact (proj1 (year_is_after_last_slash "not a month/17" "1908"
                  (tail (incident_row "" "" "")) eq_refl)).
Defined.

(** ** What the counters hold *)

Lemma assoc_counter_incr (k e : string) (c : Counter) :
  assoc k (counter_incr c e) =
  if String.eqb k e then Some (default 0 (assoc k c) + 1) else assoc k c.
Proof.
  induction c as [| [k' n] c IH]; simpl.
  - destruct (String.eqb k e); reflexivity.
  - destruct (String.eqb_spec e k') as [-> | Hne]; simpl.
    + destruct (String.eqb k k'); reflexivity.
    + rewrite IH.
      destruct (String.eqb_spec k k') as [Hk | Hk],
               (String.eqb_spec k e) as [He | He]; try reflexivity.
      subst. contradiction.
Qed.

Lemma occurrences_nonneg (k : string) (elems : list string) :
  0 <= occurrences k elems.
Proof.
  induction elems as [| x rest IH]; simpl; [lia |].
  destruct (String.eqb k x); lia.
Qed.

Lemma assoc_fold_counter_incr (k : string) (elems : list string) :
  forall acc : Counter,
    assoc k (fold_left counter_incr elems acc) =
    if (occurrences k elems =? 0)%Z then assoc k acc
    else Some (default 0 (assoc k acc) + occurrences k elems).
Proof.
  induction elems as [| e rest IH]; intros acc; simpl; [reflexivity |].
  rewrite IH, assoc_counter_incr.
  pose proof (occurrences_nonneg k rest) as Hocc.
  destruct (String.eqb k e); simpl.
  - destruct (Z.eqb_spec (occurrences k rest) 0) as [-> | Hne],
             (Z.eqb_spec (1 + occurrences k rest) 0); try lia.
    + reflexivity.
    + f_equal. lia.
  - reflexivity.
Qed.

(** X8: [Counter(iterable)] holds under each element the number of times
    it occurs, and has no key for what does not occur. *)
Theorem counter_counts_occurrences (k : string) (elems : list string) :
  assoc k (counter_of elems) =
  if (occurrences k elems =? 0)%Z then None else Some (occurrences k elems).
Proof.
  unfold counter_of. rewrite assoc_fold_counter_incr. simpl.
  destruct (occurrences k elems =? 0)%Z; reflexivity.
Qed.

Lemma counter_of_default (k : string) (elems : list string) :
  default 0 (assoc k (counter_of elems)) = occurrences k elems.
Proof.
  unfold counter_of. rewrite assoc_fold_counter_incr. simpl.
  destruct (Z.eqb_spec (occurrences k elems) 0) as [-> | _]; reflexivity.
Qed.

Lemma sum_counts_incr (c : Counter) (e : string) :
  sum_counts (counter_incr c e) = sum_counts c + 1.
Proof.
  unfold sum_counts. induction c as [| [k n] c IH]; simpl; [lia |].
  destruct (String.eqb e k); simpl; lia.
Qed.

Lemma sum_counts_fold (elems : list string) :
  forall acc : Counter,
    sum_counts (fold_left counter_incr elems acc)
    = sum_counts acc + Z.of_nat (length elems).
Proof.
  induction elems as [| e rest IH]; intros acc; simpl length; simpl fold_left.
  - lia.
  - rewrite IH, sum_counts_incr. lia.
Qed.

Lemma gen_types_length (rows : list row) (ks : list string) :
  gen_types rows = Ok ks -> length ks = length rows.
Proof.
  revert ks. induction rows as [| x rows IH]; simpl; intros ks.
  - intros [= <-]. reflexivity.
  - destruct (getitem x 6) as [k |]; simpl; [| discriminate].
    destruct (gen_types rows) as [ks' |]; simpl; [| discriminate].
    intros [= <-]. simpl. f_equal. apply IH. reflexivity.
Qed.

(** X9: when the counter of aircraft types is built, its counts add up to
    the number of data rows: every data row is counted once, blank types
    included. *)
Theorem type_counts_add_up_to_rows (airplane_data : list row) (c : Counter) :
  count_types airplane_data = Ok c ->
  sum_counts c = Z.of_nat (length (slice_from_1 airplane_data)).
Proof.
  unfold count_types.
  destruct (gen_types (slice_from_1 airplane_data)) as [ks |] eqn:Hg;
    simpl; [| discriminate].
  intros [= <-]. unfold counter_of.
  rewrite sum_counts_fold, (gen_types_length _ _ Hg). reflexivity.
Qed.

Lemma type_counts_add_up_to_rows_witness :
  count_types mixed_rows
    = Ok [("Dirigible", 2); ("Curtiss seaplane", 1); ("Zeppelin L-1", 1);
          ("Zeppelin L-2", 1)] /\
  sum_counts [("Dirigible", 2); ("Curtiss seaplane", 1); ("Zeppelin L-1", 1);
              ("Zeppelin L-2", 1)] = 5.
Proof.
  assert (H : count_types mixed_rows
              = Ok [("Dirigible", 2); ("Curtiss seaplane", 1);
                    ("Zeppelin L-1", 1); ("Zeppelin L-2", 1)])
    by reflexivity.
  split; [exact H |].
  exact (type_counts_add_up_to_rows mixed_rows _ H).
Defined.

Lemma is_fatal_has_type (x : row) (b : bool) :
  is_fatal x = Ok b -> exists k : string, getitem x 6 = Ok k.
Proof.
  unfold is_fatal, getitem at 1.
  destruct (x !! 11%nat) as [cell |] eqn:H11; simpl; [| discriminate].
  intros _. apply getitem_in_range.
  apply lookup_lt_Some in H11. lia.
Qed.

(** The fatal generator yields some of what the plain one yields. *)
Lemma gen_fatal_within_gen (rows : list row) (fs : list string) :
  gen_fatal_types rows = Ok fs ->
  exists ks : list string,
    gen_types rows = Ok ks /\
    forall k : string, occurrences k fs <= occurrences k ks.
Proof.
  revert fs. induction rows as [| x rows IH]; simpl; intros fs.
  - intros [= <-]. exists []. split; [reflexivity | intros; simpl; lia].
  - destruct (is_fatal x) as [keep |] eqn:Hf; simpl; [| discriminate].
    destruct (is_fatal_has_type x keep Hf) as [k ->]. simpl.
    destruct keep.
    + destruct (gen_fatal_types rows) as [fs' |]; simpl; [| discriminate].
      intros [= <-]. destruct (IH fs' eq_refl) as (ks & -> & Hle).
      exists (k :: ks). split; [reflexivity |].
      intros k'. simpl. specialize (Hle k'). lia.
    + intros Hfs. destruct (IH fs Hfs) as (ks & -> & Hle).
      exists (k :: ks). split; [reflexivity |].
      intros k'. simpl. specialize (Hle k').
      destruct (String.eqb k' k); lia.
Qed.

(** X10: whenever the counter of fatal crashes is built, so is the counter
    of all crashes, and no aircraft type counts more fatal crashes than
    crashes. *)
Theorem fatal_counts_within_counts (airplane_data : list row) (fc : Counter) :
  count_fatal_types airplane_data = Ok fc ->
  exists c : Counter,
    count_types airplane_data = Ok c /\
    forall k : string, default 0 (assoc k fc) <= default 0 (assoc k c).
Proof.
  unfold count_fatal_types, count_types.
  destruct (gen_fatal_types (slice_from_1 airplane_data)) as [fs |] eqn:Hg;
    simpl; [| discriminate].
  intros [= <-]. destruct (gen_fatal_within_gen _ _ Hg) as (ks & -> & Hle).
  simpl. eexists. split; [reflexivity |].
  intros k. rewrite !counter_of_default. apply Hle.
Qed.

Lemma fatal_counts_within_counts_witness :
  count_fatal_types mixed_rows
    = Ok [("Dirigible", 1); ("Zeppelin L-1", 1); ("Zeppelin L-2", 1)] /\
  exists c : Counter,
    count_types mixed_rows = Ok c /\
    forall k : string,
      default 0 (assoc k [("Dirigible", 1); ("Zeppelin L-1", 1);
                          ("Zeppelin L-2", 1)])
      <= default 0 (assoc k c).
Proof.
  assert (H : count_fatal_types mixed_rows
              = Ok [("Dirigible", 1); ("Zeppelin L-1", 1); ("Zeppelin L-2", 1)])
    by reflexivity.
  split; [exact H |].
  exact (fatal_counts_within_counts mixed_rows _ H).
Defined.

Lemma gen_types_fields (rows : list row) :
  gen_types rows =
  if forallb (fun r => (7 <=? length r)%nat) rows
  then Ok (map (fun r => default "" (r !! 6%nat)) rows)
  else Err IndexError.
Proof.
  induction rows as [| x rows IH]; [reflexivity |].
  cbn [gen_types forallb map]. unfold getitem.
  destruct (x !! 6%nat) as [k |] eqn:Hk.
  - apply lookup_lt_Some in Hk.
    rewrite (proj2 (Nat.leb_le 7 (length x))) by lia.
    rewrite IH. destruct (forallb _ rows); reflexivity.
  - apply lookup_ge_None in Hk.
    rewrite (proj2 (Nat.leb_gt 7 (length x))) by lia. reflexivity.
Qed.

(** X11: the counter of aircraft types is built exactly when every data
    row has at least seven fields, and then counts field 6 of each data
    row; otherwise [IndexError] is raised.  Dates and fatality cells are not
    read, so rows the tally rejects are counted all the same. *)
Theorem count_types_needs_seven_fields (airplane_data : list row) :
  count_types airplane_data =
  if forallb (fun r => (7 <=? length r)%nat) (slice_from_1 airplane_data)
  then Ok (counter_of (map (fun r => default "" (r !! 6%nat))
                           (slice_from_1 airplane_data)))
  else Err IndexError.
Proof.
  unfold count_types. rewrite gen_types_fields.
  destruct (forallb _ _); reflexivity.
Qed.

(** The short row and the malformed count stop the tally, not the
    counter. *)
Example counted_though_unreadable :
  count_types short_rows = Ok [("Fokker", 3)] /\
  count_types bad_count_rows = Ok [("Fokker", 3)] /\
  count_fatal_types short_rows = Err IndexError /\
  count_fatal_types bad_count_rows = Err ValueError.
Proof. repeat split; reflexivity. Qed.

Lemma assoc_of_item (c : Counter) (k : string) (v : Z) :
  NoDup c.*1 -> (k, v) ∈ c -> assoc k c = Some v.
Proof.
  induction c as [| [k' n] c IH]; simpl; intros Hnd Hin.
  - inversion Hin.
  - apply NoDup_cons in Hnd as [Hk' Hnd].
    apply elem_of_cons in Hin as [Heq | Hin].
    + injection Heq as -> ->. rewrite String.eqb_refl. reflexivity.
    + destruct (String.eqb_spec k k') as [-> | _]; [| exact (IH Hnd Hin)].
      destruct Hk'. exact (list_elem_of_fmap_2 fst _ _ Hin).
Qed.

(** X12: every pair [most_common] lists is a true count: the key occurs
    in the counted sequence, exactly as often as the pair says. *)
Theorem most_common_counts_are_true
    (elems : list string) (n : nat) (k : string) (v : Z) :
  In (k, v) (most_common n (counter_of elems)) ->
  v = occurrences k elems /\ 0 < v.
Proof.
  intros Hin. apply list_elem_of_In in Hin. unfold most_common in Hin.
  assert (Hc : (k, v) ∈ counter_of elems).
  { rewrite <- (sorted_desc_Permutation (counter_of elems)).
    eapply sublist_subseteq; [apply sublist_take | exact Hin]. }
  apply (assoc_of_item _ _ _ (counter_of_NoDup elems)) in Hc.
  unfold counter_of in Hc. rewrite assoc_fold_counter_incr in Hc. simpl in Hc.
  pose proof (occurrences_nonneg k elems).
  destruct (Z.eqb_spec (occurrences k elems) 0); [discriminate |].
  injection Hc as <-. lia.
Qed.

Lemma most_common_counts_are_true_witness :
  In ("Douglas DC-3", 2) (most_common 2 (counter_of sample_types)) /\
  2 = occurrences "Douglas DC-3" sample_types /\ 0 < 2.
Proof.
  assert (H : In ("Douglas DC-3", 2) (most_common 2 (counter_of sample_types)))
    by (right; left; reflexivity).
  split; [exact H |].
  exact (most_common_counts_are_true sample_types 2 "Douglas DC-3" 2 H).
Defined.

Lemma gen_types_same_cells (rows rows' : list row) :
  Forall2 (fun r r' => r !! 6%nat = r' !! 6%nat /\ r !! 11%nat = r' !! 11%nat)
          rows rows' ->
  gen_types rows = gen_types rows' /\
  gen_fatal_types rows = gen_fatal_types rows'.
Proof.
  induction 1 as [| r r' rows rows' [H6 H11] _ [IH1 IH2]]; simpl.
  - split; reflexivity.
  - unfold is_fatal, getitem. rewrite H6, H11, IH1, IH2.
    split; reflexivity.
Qed.

(** X13: the two counters depend on the type and fatality cells of the
    data rows (fields 6 and 11) and on nothing else; the header row and
    the dates are never read. *)
Theorem counters_read_type_and_count_only
    (header header' : row) (rows rows' : list row) :
  Forall2 (fun r r' => r !! 6%nat = r' !! 6%nat /\ r !! 11%nat = r' !! 11%nat)
          rows rows' ->
  count_types (header :: rows) = count_types (header' :: rows') /\
  count_fatal_types (header :: rows) = count_fatal_types (header' :: rows').
Proof.
  intros H. unfold count_types, count_fatal_types. simpl.
  destruct (gen_types_same_cells rows rows' H) as [-> ->].
  split; reflexivity.
Qed.

Lemma counters_read_type_and_count_only_witness :
  count_types [header_row; incident_row "1/1/1920" "Fokker" "3"]
  = count_types [[]; incident_row "no date" "Fokker" "3"] /\
  count_fatal_types [header_row; incident_row "1/1/1920" "Fokker" "3"]
  = count_fatal_types [[]; incident_row "no date" "Fokker" "3"].
Proof.
  apply (counters_read_type_and_count_only header_row []
           [incident_row "1/1/1920" "Fokker" "3"]
           [incident_row "no date" "Fokker" "3"]).
  repeat constructor.
Defined.

(** ** More on the paging loop *)

Lemma for_each_ext {S A} (f g : S -> A -> outcome S) (l : list A) :
  (forall (s : S) (x : A), f s x = g s x) ->
  forall s : S, for_each f s l = for_each g s l.
Proof.
  intros Hfg. induction l as [| x l IH]; intros s; simpl; [reflexivity |].
  rewrite Hfg. destruct (g s x); [apply IH | reflexivity].
Qed.

Ltac grown_by more urls :=
  exists more, urls; rewrite ?app_nil_r; simpl;
  split; [reflexivity | split; [reflexivity | lia]].

Lemma chained_step (pages extra : list json) (urls : list string)
    (page : json) (c : string) :
  chained pages urls ->
  length pages = S (length urls) ->
  last pages = Some page ->
  after_of page = Ok (JStr c) ->
  chained (pages ++ extra) (urls ++ [String.append listing_url c]).
Proof.
  intros Hch Hlen Hlast Hafter i url Hi.
  destruct (decide (i < length urls)%nat) as [Hlt | Hge].
  - rewrite lookup_app_l in Hi by exact Hlt.
    destruct (Hch i url Hi) as (p & c' & Hp & Hc' & ->).
    exists p, c'. split; [| split; [exact Hc' | reflexivity]].
    apply lookup_app_l_Some, Hp.
  - rewrite lookup_app_r in Hi by lia.
    destruct (i - length urls)%nat as [| j] eqn:Hj; [| destruct j; discriminate].
    injection Hi as <-. exists page, c.
    split; [| split; [exact Hafter | reflexivity]].
    apply lookup_app_l_Some. rewrite last_lookup in Hlast.
    replace i with (pred (length pages)) by lia. exact Hlast.
Qed.

Section PagingMore.

Context {World : Type}.
Variable requests_get : string -> World -> result Response * World.

(** The state the loop is in between two turns: one page more than
    requests, and [before] holding the cursor of the last page. *)
Let linked (st : paging World) : Prop :=
  length (data_sets st) = S (length (requested st)) /\
  exists (page cur : json),
    last (data_sets st) = Some page /\
    after_of page = Ok cur /\
    before st = Some cur.

Let chained_state (st : paging World) : Prop :=
  chained (data_sets st) (requested st).

Lemma paging_body_chained (st : paging World) (x : nat) :
  linked st -> chained_state st ->
  match paging_body requests_get st x with
  | Done st' => linked st' /\ chained_state st'
  | Raised _ st' => chained_state st'
  end.
Proof.
  intros (Hlen & page & cur & Hlast & Hafter & Hbef) Hch.
  unfold paging_body. rewrite Hbef.
  destruct cur as [| | | c | |]; simpl; try exact Hch.
  destruct (requests_get (String.append listing_url c) (world st)) as [r w'].
  pose proof (chained_step _ [] _ _ _ Hch Hlen Hlast Hafter) as Hch1.
  rewrite app_nil_r in Hch1.
  destruct (r ≫= Response_json) as [page' |]; [| exact Hch1].
  pose proof (chained_step _ [page'] _ _ _ Hch Hlen Hlast Hafter) as Hch2.
  destruct (after_of page') as [cur' |] eqn:Hafter'; [| exact Hch2].
  split; [| exact Hch2]. split; simpl.
  - rewrite !length_app. simpl. lia.
  - exists page', cur'. rewrite last_snoc. auto.
Qed.

Lemma paging_turns_chained (l : list nat) :
  forall st : paging World,
    linked st -> chained_state st ->
    match for_each (paging_body requests_get) st l with
    | Done st' => linked st' /\ chained_state st'
    | Raised _ st' => chained_state st'
    end.
Proof.
  induction l as [| x l IH]; intros st Hl Hc; simpl; [auto |].
  pose proof (paging_body_chained st x Hl Hc) as Hb.
  destruct (paging_body requests_get st x) as [st1 | e st1];
    [apply IH; tauto | exact Hb].
Qed.

(** X16: every request the paging cell makes is for the listing URL
    followed by the [after] cursor of the page collected just before it:
    request [i] carries the cursor of page [i], in any run, completed or
    not. *)
Theorem requests_follow_cursors
    (reddit_json : json) (w : World) (i : nat) (url : string) :
  requested (state_of (paging_cell requests_get reddit_json w)) !! i
    = Some url ->
  exists (page : json) (c : string),
    data_sets (state_of (paging_cell requests_get reddit_json w)) !! i
      = Some page /\
    after_of page = Ok (JStr c) /\
    url = String.append listing_url c.
Proof.
  assert (H : chained_state
                (state_of (paging_cell requests_get reddit_json w))).
  { unfold paging_cell.
    destruct (after_of reddit_json) as [cursor |] eqn:Hafter.
    - set (st := {| world := w; data_sets := [reddit_json];
                    before := Some cursor; requested := [] |}).
      assert (Hl : linked st).
      { split; [reflexivity |]. exists reddit_json, cursor. auto. }
      assert (Hc : chained_state st) by (intros j u Hj; discriminate Hj).
      pose proof (paging_turns_chained (seq 0 10) st Hl Hc) as Hrun.
      unfold paging_loop.
      destruct (for_each _ st (seq 0 10)); simpl; tauto.
    - intros j u Hj. discriminate Hj. }
  intros Hi. exact (H i url Hi).
Qed.

(** X17: a response whose body decodes but has no [data]/[after] is put
    into [data_sets] like a page before the loop stops on it: the loop
    raises the [KeyError] or [TypeError] of the lookup, with that body as
    the last entry of [data_sets]. *)
Theorem cursorless_page_is_kept
    (n k : nat) (st st' : paging World) (cursor : string)
    (resp : Response) (page : json) (w' : World) (e : exn) :
  paging_loop requests_get k st = Done st' ->
  before st' = Some (JStr cursor) ->
  requests_get (String.append listing_url cursor) (world st') = (Ok resp, w') ->
  body resp = Some page ->
  after_of page = Err e ->
  (k < n)%nat ->
  paging_loop requests_get n st =
    Raised e {| world := w';
                data_sets := data_sets st' ++ [page];
                before := before st';
                requested :=
                  requested st' ++ [String.append listing_url cursor] |}.
Proof.
  intros Hrun Hcur Hget Hbody Hafter Hlt.
  replace n with (k + S (n - k - 1))%nat by lia.
  rewrite paging_loop_add, Hrun.
  unfold paging_loop. simpl. unfold paging_body.
  rewrite Hcur. simpl. rewrite Hget. simpl. unfold Response_json.
  rewrite Hbody, Hafter. reflexivity.
Qed.

(** The growth of the state over one turn. *)
Lemma paging_body_growth (st : paging World) (x : nat) :
  exists (more : list json) (urls : list string),
    data_sets (state_of (paging_body requests_get st x))
      = data_sets st ++ more /\
    requested (state_of (paging_body requests_get st x))
      = requested st ++ urls /\
    (length more <= length urls <= 1)%nat.
Proof.
  unfold paging_body.
  destruct (before st) as [cursor |]; [| grown_by (@nil json) (@nil string)].
  destruct (str_add listing_url cursor) as [url |];
    [| grown_by (@nil json) (@nil string)].
  destruct (requests_get url (world st)) as [r w'].
  destruct (r ≫= Response_json) as [page |]; [| grown_by (@nil json) [url]].
  destruct (after_of page) as [cursor' |]; grown_by [page] [url].
Qed.

(** The growth of the state over any number of turns. *)
Lemma paging_turns_growth (l : list nat) :
  forall st : paging World,
    exists (more : list json) (urls : list string),
      data_sets (state_of (for_each (paging_body requests_get) st l))
        = data_sets st ++ more /\
      requested (state_of (for_each (paging_body requests_get) st l))
        = requested st ++ urls /\
      (length more <= length urls <= length l)%nat.
Proof.
  induction l as [| x l IH]; intros st; simpl.
  - grown_by (@nil json) (@nil string).
  - destruct (paging_body_growth st x) as (more1 & urls1 & Hd1 & Hr1 & Hlen1).
    destruct (paging_body requests_get st x) as [st1 | e st1]; simpl in *.
    + destruct (IH st1) as (more & urls & Hd & Hr & Hlen).
      exists (more1 ++ more), (urls1 ++ urls).
      rewrite Hd, Hr, Hd1, Hr1, <- !app_assoc, !length_app.
      split; [reflexivity | split; [reflexivity | lia]].
    + exists more1, urls1.
      split; [exact Hd1 | split; [exact Hr1 | lia]].
Qed.

(** X14: whatever the server answers, the paging cell makes at most ten
    requests.  When the first page has no cursor to read, the cell stops on
    its first statement with the exception of that lookup, before it has
    bound a name or made a request.  Otherwise it keeps the first page
    first and never holds more new pages than it has made requests; and
    when it completes it has made exactly ten requests and holds eleven
    pages. *)
Theorem paging_cell_at_most_ten_requests (reddit_json : json) (w : World) :
  (length (requested (state_of (paging_cell requests_get reddit_json w)))
     <= 10)%nat /\
  (forall e : exn,
      after_of reddit_json = Err e ->
      paging_cell requests_get reddit_json w =
        Raised e {| world := w; data_sets := [];
                    before := None; requested := [] |}) /\
  (forall cursor : json,
      after_of reddit_json = Ok cursor ->
      exists more : list json,
        data_sets (state_of (paging_cell requests_get reddit_json w))
          = reddit_json :: more /\
        (length more
           <= length (requested
                        (state_of (paging_cell requests_get reddit_json w))))%nat) /\
  (forall st : paging World,
      paging_cell requests_get reddit_json w = Done st ->
      length (data_sets st) = 11%nat /\ length (requested st) = 10%nat).
Proof.
  unfold paging_cell.
  destruct (after_of reddit_json) as [cursor | e0].
  - set (st0 := {| world := w; data_sets := [reddit_json];
                   before := Some cursor; requested := [] |}).
    destruct (paging_turns_growth (seq 0 10) st0)
      as (more & urls & Hd & Hr & Hlen).
    unfold paging_loop. rewrite Hd, Hr. simpl. rewrite length_seq in Hlen.
    split; [lia |]. split; [discriminate |]. split.
    + intros _ _. exists more. split; [reflexivity | lia].
    + intros st Hst.
      exact (paging_loop_Done requests_get 10 st0 st Hst).
  - simpl. split; [lia |]. split; [| split; discriminate].
    intros e [= <-]. reflexivity.
Qed.

(** X15: the status code of a response plays no part: rewriting every
    status code the server sends leaves the run of the paging cell as it
    is. *)
Theorem status_code_is_never_read
    (f : Z -> Z) (reddit_json : json) (w : World) :
  paging_cell (restatus f requests_get) reddit_json w
  = paging_cell requests_get reddit_json w.
Proof.
  unfold paging_cell, paging_loop.
  destruct (after_of reddit_json); [| reflexivity].
  apply for_each_ext. intros st x. unfold paging_body, restatus.
  destruct (before st) as [cursor |]; [| reflexivity].
  destruct (str_add listing_url cursor) as [url |]; [| reflexivity].
  destruct (requests_get url (world st)) as [[resp | e] w']; reflexivity.
Qed.

End PagingMore.

Lemma requests_follow_cursors_witness :
  requested (state_of (paging_cell (served_get site_abc) page_abc 0%nat))
    !! 0%nat = Some (String.append listing_url "abc") /\
  exists (page : json) (c : string),
    data_sets (state_of (paging_cell (served_get site_abc) page_abc 0%nat))
      !! 0%nat = Some page /\
    after_of page = Ok (JStr c) /\
    String.append listing_url "abc" = String.append listing_url c.
Proof.
  assert (H : requested
                (state_of (paging_cell (served_get site_abc) page_abc 0%nat))
                !! 0%nat = Some (String.append listing_url "abc"))
    by (vm_compute; reflexivity).
  split; [exact H |].
  exact (requests_follow_cursors (served_get site_abc) page_abc 0%nat
           0%nat _ H).
Defined.

Lemma cursorless_page_is_kept_witness :
  paging_loop (served_get site_429) 1 a_start = Done a_then_b /\
  after_of too_many_requests = Err KeyError /\
  paging_loop (served_get site_429) 10 a_start =
    Raised KeyError
      {| world := 2%nat;
         data_sets := data_sets a_then_b ++ [too_many_requests];
         before := before a_then_b;
         requested := requested a_then_b ++ [String.append listing_url "b"] |}.
Proof.
  split; [vm_compute; reflexivity |]. split; [reflexivity |].
  apply (cursorless_page_is_kept (served_get site_429) 10 1 a_start a_then_b
           "b" {| status_code := 429; body := Some too_many_requests |}
           too_many_requests 2%nat KeyError);
    [vm_compute; reflexivity | reflexivity | vm_compute; reflexivity
    | reflexivity | reflexivity | lia].
Defined.

(** ** More on the score cells *)

(** X18: the loop and the comprehension of the score cell stop on the same
    exception or both complete; when they complete, the loop holds one list
    per page and the comprehension holds these lists joined end to end. *)
Theorem scores_loop_flattens_to_concise (data_sets : list json) :
  scores_concise data_sets =
    match scores_loop data_sets with
    | Ok ls => Ok (concat ls)
    | Err e => Err e
    end /\
  forall ls : list (list json),
    scores_loop data_sets = Ok ls -> length ls = length data_sets.
Proof.
  split; [| apply scores_loop_length].
  rewrite scores_concise_concat. destruct (scores_loop data_sets); reflexivity.
Qed.

Lemma dataset_scores_Forall2 (children ss : list json) :
  dataset_scores children = Ok ss <->
  Forall2 (fun x s => score_of x = Ok s) children ss.
Proof.
  revert ss. induction children as [| x children IH]; intros ss; simpl.
  - split; [intros [= <-]; constructor | intros H; inversion H; reflexivity].
  - split.
    + destruct (score_of x) as [s |] eqn:Hx; simpl; [| discriminate].
      destruct (dataset_scores children) as [ss' |] eqn:Hd; simpl;
        [| discriminate].
      intros [= <-]. constructor; [exact Hx | apply IH; reflexivity].
    + intros H. inversion H as [| x' s children' ss' Hx Hrest]; subst.
      rewrite Hx. simpl. apply IH in Hrest. rewrite Hrest. reflexivity.
Qed.

(** X19: the score loop completes exactly when every page has children to
    iterate and every child a [data.score], and then it drops and adds
    nothing: the list kept for a page has one entry per child of that page,
    in order, each the [data.score] of its child. *)
Theorem scores_loop_one_score_per_child
    (data_sets : list json) (ls : list (list json)) :
  scores_loop data_sets = Ok ls <->
  Forall2 (fun y l =>
             exists children : list json,
               children_of y = Ok children /\
               Forall2 (fun x s => score_of x = Ok s) children l)
          data_sets ls.
Proof.
  revert ls. induction data_sets as [| y rest IH]; intros ls; simpl.
  - split; [intros [= <-]; constructor | intros H; inversion H; reflexivity].
  - split.
    + destruct (children_of y) as [children |] eqn:Hy; simpl; [| discriminate].
      destruct (dataset_scores children) as [l |] eqn:Hd; simpl;
        [| discriminate].
      destruct (scores_loop rest) as [ls' |] eqn:Hr; simpl; [| discriminate].
      intros [= <-]. constructor; [| apply IH; reflexivity].
      exists children. split; [exact Hy |].
      apply dataset_scores_Forall2, Hd.
    + intros H.
      inversion H as [| y' l rest' ls' (children & Hy & Hl) Hrest]; subst.
      rewrite Hy. simpl. apply dataset_scores_Forall2 in Hl. rewrite Hl. simpl.
      apply IH in Hrest. rewrite Hrest. reflexivity.
Qed.

Lemma dataset_scores_stops (cs1 cs2 : list json) (x : json)
    (ss : list json) (e : exn) :
  dataset_scores cs1 = Ok ss ->
  score_of x = Err e ->
  dataset_scores (cs1 ++ x :: cs2) = Err e.
Proof.
  revert ss. induction cs1 as [| c cs1 IH]; simpl; intros ss Hss Hx.
  - rewrite Hx. reflexivity.
  - destruct (score_of c) as [s |]; simpl in *; [| discriminate].
    destruct (dataset_scores cs1) as [ss' |]; simpl in *; [| discriminate].
    rewrite (IH ss' eq_refl Hx). reflexivity.
Qed.

Lemma scores_loop_stops (earlier later : list json) (y : json)
    (ls : list (list json)) (e : exn) :
  scores_loop earlier = Ok ls ->
  page_scores y = Err e ->
  scores_loop (earlier ++ y :: later) = Err e.
Proof.
  revert ls. induction earlier as [| p earlier IH]; simpl; intros ls Hls Hy.
  - unfold page_scores in Hy.
    destruct (children_of y) as [cs |]; simpl in *;
      [rewrite Hy; reflexivity | congruence].
  - destruct (children_of p) as [cs |]; simpl in *; [| discriminate].
    destruct (dataset_scores cs) as [ds |]; simpl in *; [| discriminate].
    destruct (scores_loop earlier) as [ls' |]; simpl in *; [| discriminate].
    rewrite (IH ls' eq_refl Hy). reflexivity.
Qed.

(** X20: a post whose [data] has no [score] stops the score cells with
    [KeyError], wherever it stands: pages and posts before it are read
    without complaint, and the cells end on the exception of the
    dictionary lookup. *)
Theorem missing_score_raises_KeyError
    (earlier later : list json) (y : json) (ls : list (list json))
    (cs1 cs2 : list json) (x : json) (ss : list json)
    (fields : list (string * json)) :
  scores_loop earlier = Ok ls ->
  children_of y = Ok (cs1 ++ x :: cs2) ->
  dataset_scores cs1 = Ok ss ->
  subscript x "data" = Ok (JObj fields) ->
  assoc "score" fields = None ->
  page_scores y = Err KeyError /\
  scores_loop (earlier ++ y :: later) = Err KeyError /\
  scores_concise (earlier ++ y :: later) = Err KeyError.
Proof.
  intros Hpre Hy Hcs1 Hdata Hscore.
  assert (Hx : score_of x = Err KeyError).
  { unfold score_of. rewrite Hdata. simpl. rewrite Hscore. reflexivity. }
  assert (Hpage : page_scores y = Err KeyError).
  { unfold page_scores. rewrite Hy. simpl.
    exact (dataset_scores_stops cs1 cs2 x ss KeyError Hcs1 Hx). }
  pose proof (scores_loop_stops earlier later y ls KeyError Hpre Hpage) as Hloop.
  split; [exact Hpage |]. split; [exact Hloop |].
  rewrite scores_concise_concat, Hloop. reflexivity.
Qed.

Lemma missing_score_raises_KeyError_witness :
  page_scores (listing [post 1; post_without_score; post 3] JNull)
    = Err KeyError /\
  scores_loop [page_abc; listing [post 1; post_without_score; post 3] JNull;
               page_end] = Err KeyError /\
  scores_concise [page_abc; listing [post 1; post_without_score; post 3] JNull;
                  page_end] = Err KeyError.
Proof.
  apply (missing_score_raises_KeyError [page_abc] [page_end]
           (listing [post 1; post_without_score; post 3] JNull)
           [[JNum 10; JNum 20]] [post 1] [post 3] post_without_score
           [JNum 1] [("title", JStr "no score")]); reflexivity.
Defined.

(** ** The two CSV cells side by side *)

(** X21: the tabulation cell and the counting cell do not disturb each
    other: neither writes [airplane_data] or the other's names, so running
    them in either order, whether or not one of them raises, leaves the
    notebook in the same state. *)
Theorem csv_cells_commute (g : globals) :
  state_of (count_cell (state_of (tabulate_cell g)))
  = state_of (tabulate_cell (state_of (count_cell g))) /\
  airplane_data (state_of (tabulate_cell g)) = airplane_data g /\
  airplane_data (state_of (count_cell g)) = airplane_data g.
Proof.
  unfold tabulate_cell, count_cell.
  destruct (tally (airplane_data g)) as [d | e d] eqn:Ht; simpl;
    (destruct (count_types (airplane_data g)) as [c | e1]; simpl;
     [destruct (count_fatal_types (airplane_data g)) as [fc | e2]; simpl |];
     rewrite Ht; repeat split; reflexivity).
Qed.

Lemma paging_cell_at_most_ten_requests_witness :
  exists st : paging nat,
    paging_cell (served_get site_blank) page_blank 0%nat = Done st /\
    length (data_sets st) = 11%nat /\ length (requested st) = 10%nat.
Proof.
  destruct (paging_cell_at_most_ten_requests (served_get site_blank)
              page_blank 0%nat) as (_ & _ & _ & Hdone).
  destruct (paging_cell (served_get site_blank) page_blank 0%nat)
    as [st | e st] eqn:Hrun; [| vm_compute in Hrun; discriminate Hrun].
  exists st. split; [reflexivity | exact (Hdone st eq_refl)].
Defined.

Lemma scores_loop_flattens_to_concise_witness :
  scores_loop [page_abc; page_end] = Ok [[JNum 10; JNum 20]; [JNum 7]] /\
  scores_concise [page_abc; page_end] = Ok [JNum 10; JNum 20; JNum 7] /\
  length [[JNum 10; JNum 20]; [JNum 7]] = length [page_abc; page_end].
Proof.
  destruct (scores_loop_flattens_to_concise [page_abc; page_end])
    as [Hflat Hlen].
  split; [reflexivity |]. split; [exact Hflat |].
  exact (Hlen [[JNum 10; JNum 20]; [JNum 7]] eq_refl).
Defined.
